(** * Navigation and view-state controller of the reader (App component)

    A shallow embedding of the state-transition logic of the [App]
    component: the verse loader [loadAyah], the navigation handlers
    ([handleNextAyah], [handlePrevAyah], [handleJumpToAyah]), the swipe
    handlers ([onTouchStart], [onTouchMove], [onTouchEnd]), the two
    composite selections and the sidebar filter [filteredSurahs]; then
    the start-up load of the chapter list, the search, commentary and
    overview handlers, and the theme and font sizes kept in
    [localStorage].

    Modelling conventions.
    - A JavaScript [number] that holds a chapter id, a verse index or a
      touch coordinate is an integer of [Z] (all values stay far inside the
      range where double arithmetic is exact); [NaN] is [None].
    - A JavaScript string is a [list ascii]; [toLowerCase] lowers the
      letters A-Z and leaves every other unit as it is.
    - An event handler runs against the state of the render that created
      it.  Its synchronous part yields the next state and the verse
      requests it has issued; each request carries the values its closure
      captured and is settled later by the answer of the provider. *)

From Stdlib Require Import ZArith List Bool Ascii String Lia.
From Stdlib Require Import Numbers.DecimalString Numbers.DecimalPos Numbers.DecimalFacts.
Import ListNotations.

Open Scope Z_scope.

(** ** JavaScript strings *)

Module JsString.

Definition t := list ascii.

Definition lit (s : string) : t := list_ascii_of_string s.

Definition lowerChar (c : ascii) : ascii :=
  let n := nat_of_ascii c in
  if (Nat.leb 65 n && Nat.leb n 90)%bool then ascii_of_nat (n + 32) else c.

(** [String.prototype.toLowerCase]. *)
Definition toLowerCase (s : t) : t := map lowerChar s.

Fixpoint startsWith (s prefix : t) {struct prefix} : bool :=
  match prefix, s with
  | [], _ => true
  | _ :: _, [] => false
  | p :: prefix', c :: s' => (Ascii.eqb c p && startsWith s' prefix')%bool
  end.

(** [String.prototype.includes]: the search string occurs at some
    position of [s]. *)
Fixpoint includes (s search : t) : bool :=
  (startsWith s search
   || match s with
      | [] => false
      | _ :: s' => includes s' search
      end)%bool.

(** [Number.prototype.toString] on an integer: its decimal text. *)
Definition numberToString (n : Z) : t :=
  lit (NilZero.string_of_int (Z.to_int n)).

(** *** parseInt *)

Definition isWhiteSpace (c : ascii) : bool :=
  let n := nat_of_ascii c in
  (Nat.eqb n 9 || Nat.eqb n 10 || Nat.eqb n 11 || Nat.eqb n 12
   || Nat.eqb n 13 || Nat.eqb n 32)%bool.

Fixpoint trimStart (s : t) : t :=
  match s with
  | c :: s' => if isWhiteSpace c then trimStart s' else s
  | [] => []
  end.

(** Value of a character as a digit (0-9, then the letters as 10-35). *)
Definition digitValue (c : ascii) : option Z :=
  let n := nat_of_ascii c in
  if (Nat.leb 48 n && Nat.leb n 57)%bool then Some (Z.of_nat (n - 48))
  else if (Nat.leb 97 n && Nat.leb n 122)%bool then Some (Z.of_nat (n - 87))
  else if (Nat.leb 65 n && Nat.leb n 90)%bool then Some (Z.of_nat (n - 55))
  else None.

(** The longest prefix of radix-[R] digits, read as a number; [acc] is
    [None] as long as no digit was read. *)
Fixpoint parseDigits (R : Z) (acc : option Z) (s : t) : option Z :=
  match s with
  | [] => acc
  | c :: s' =>
      match digitValue c with
      | Some d =>
          if d <? R
          then parseDigits R (Some (R * match acc with Some a => a | None => 0 end + d)) s'
          else acc
      | None => acc
      end
  end.

Definition stripSign (s : t) : Z * t :=
  match s with
  | "-"%char :: r => (-1, r)
  | "+"%char :: r => (1, r)
  | _ => (1, s)
  end.

Definition stripHexPrefix (s : t) : Z * t :=
  match s with
  | "0"%char :: "x"%char :: r => (16, r)
  | "0"%char :: "X"%char :: r => (16, r)
  | _ => (10, s)
  end.

(** [parseInt(s)] without a radix; [None] is [NaN]. *)
Definition parseInt (s : t) : option Z :=
  let '(sign, s1) := stripSign (trimStart s) in
  let '(R, s2) := stripHexPrefix s1 in
  match parseDigits R None s2 with
  | Some m => Some (sign * m)
  | None => None
  end.

End JsString.

(** ** Data model *)

(** [Surah], with the fields the component reads. *)
Record Surah := mkSurah {
  number : Z;
  name : JsString.t;
  englishName : JsString.t;
  englishNameTranslation : JsString.t;
  numberOfAyahs : Z
}.

(** [AyahDisplayData], with the fields the verse view reads. *)
Record AyahDisplayData := mkAyah {
  surahNumber : Z;
  ayahNumber : Z;
  surahNameEnglish : JsString.t;
  arabicText : JsString.t;
  textBn : JsString.t;
  textEn : JsString.t
}.

Inductive ViewMode := reader | search.

(** The state cells ([useState]) that navigation and the filter touch. *)
Record AppState := mkState {
  surahs : list Surah;
  currentSurah : option Surah;
  currentAyahNum : Z;
  ayahData : option AyahDisplayData;
  surahQuery : JsString.t;
  viewMode : ViewMode;
  isSidebarOpen : bool;
  isLoadingAyah : bool;
  error : option JsString.t
}.

Definition setCurrentSurah (v : option Surah) (st : AppState) : AppState :=
  mkState (surahs st) v (currentAyahNum st) (ayahData st) (surahQuery st)
          (viewMode st) (isSidebarOpen st) (isLoadingAyah st) (error st).

Definition setCurrentAyahNum (v : Z) (st : AppState) : AppState :=
  mkState (surahs st) (currentSurah st) v (ayahData st) (surahQuery st)
          (viewMode st) (isSidebarOpen st) (isLoadingAyah st) (error st).

Definition setAyahData (v : option AyahDisplayData) (st : AppState) : AppState :=
  mkState (surahs st) (currentSurah st) (currentAyahNum st) v (surahQuery st)
          (viewMode st) (isSidebarOpen st) (isLoadingAyah st) (error st).

Definition setSurahQuery (v : JsString.t) (st : AppState) : AppState :=
  mkState (surahs st) (currentSurah st) (currentAyahNum st) (ayahData st) v
          (viewMode st) (isSidebarOpen st) (isLoadingAyah st) (error st).

Definition setViewMode (v : ViewMode) (st : AppState) : AppState :=
  mkState (surahs st) (currentSurah st) (currentAyahNum st) (ayahData st)
          (surahQuery st) v (isSidebarOpen st) (isLoadingAyah st) (error st).

Definition setIsSidebarOpen (v : bool) (st : AppState) : AppState :=
  mkState (surahs st) (currentSurah st) (currentAyahNum st) (ayahData st)
          (surahQuery st) (viewMode st) v (isLoadingAyah st) (error st).

Definition setIsLoadingAyah (v : bool) (st : AppState) : AppState :=
  mkState (surahs st) (currentSurah st) (currentAyahNum st) (ayahData st)
          (surahQuery st) (viewMode st) (isSidebarOpen st) v (error st).

Definition setError (v : option JsString.t) (st : AppState) : AppState :=
  mkState (surahs st) (currentSurah st) (currentAyahNum st) (ayahData st)
          (surahQuery st) (viewMode st) (isSidebarOpen st) (isLoadingAyah st) v.

(** ** The verse loader *)

(** Answer of [QuranService.getAyah]: the promise resolves or rejects. *)
Inductive Response :=
| Resolved (data : AyahDisplayData)
| Rejected.

Definition Provider := Z -> Z -> Response.

(** A request in flight: the arguments of the [loadAyah] call and the
    [surahs] and [currentSurah] its closure captured. *)
Record Pending := mkPending {
  p_surahNum : Z;
  p_ayahNum : Z;
  p_surahs : list Surah;
  p_currentSurah : option Surah
}.

Definition target (p : Pending) : Z * Z := (p_surahNum p, p_ayahNum p).

(** Outcome of the synchronous part of a handler. *)
Definition Step := (AppState * list Pending)%type.

Definition targets (r : Step) : list (Z * Z) := map target (snd r).

Definition loadErrorMessage : JsString.t :=
  JsString.lit "Could not load Ayah. It might not exist or network is down.".

(** [loadAyah] up to its [await]: [render] is the state the callback was
    created in. *)
Definition loadAyah (render : AppState) (surahNum ayahNum : Z) (st : AppState) : Step :=
  let st := setIsLoadingAyah true st in
  let st := setError None st in
  (st, [mkPending surahNum ayahNum (surahs render) (currentSurah render)]).

Definition needsSurahLookup (captured : option Surah) (surahNum : Z) : bool :=
  match captured with
  | None => true
  | Some c => negb (number c =? surahNum)
  end.

(** [loadAyah] after its [await]: the [try] body on a resolved promise,
    the [catch] on a rejected one, then the [finally]. *)
Definition settle (p : Pending) (r : Response) (st : AppState) : AppState :=
  let st :=
    match r with
    | Resolved data =>
        let st := setAyahData (Some data) st in
        let st := setCurrentAyahNum (p_ayahNum p) st in
        if needsSurahLookup (p_currentSurah p) (p_surahNum p) then
          match find (fun s => number s =? p_surahNum p) (p_surahs p) with
          | Some foundSurah => setCurrentSurah (Some foundSurah) st
          | None => st
          end
        else st
    | Rejected => setError (Some loadErrorMessage) st
    end in
  setIsLoadingAyah false st.

(** Runs a handler to quiescence: every request it issued is sent to the
    provider and settled.  Returns the final state and the coordinates
    the provider was asked for, in order. *)
Definition run (getAyah : Provider) (r : Step) : AppState * list (Z * Z) :=
  (fold_left (fun st p => settle p (getAyah (p_surahNum p) (p_ayahNum p)) st)
             (snd r) (fst r),
   targets r).

(** ** Navigation handlers *)

Definition handleNextAyah (st : AppState) : Step :=
  match currentSurah st with
  | None => (st, [])
  | Some cur =>
      if currentAyahNum st <? numberOfAyahs cur then
        loadAyah st (number cur) (currentAyahNum st + 1) st
      else if number cur <? 114 then
        loadAyah st (number cur + 1) 1 st
      else (st, [])
  end.

Definition handlePrevAyah (st : AppState) : Step :=
  match currentSurah st with
  | None => (st, [])
  | Some cur =>
      if currentAyahNum st >? 1 then
        loadAyah st (number cur) (currentAyahNum st - 1) st
      else if number cur >? 1 then
        loadAyah st (number cur - 1) 1 st
      else (st, [])
  end.

(** [value] is [e.target.value], the text of the input. *)
Definition handleJumpToAyah (value : JsString.t) (st : AppState) : Step :=
  match currentSurah st, JsString.parseInt value with
  | Some cur, Some num =>
      if ((num >? 0) && (num <=? numberOfAyahs cur))%bool then
        loadAyah st (number cur) num st
      else (st, [])
  | _, _ => (st, [])
  end.

(** ** Swipe handlers *)

(** The four [useRef] cells. *)
Record TouchRefs := mkRefs {
  touchStartX : option Z;
  touchStartY : option Z;
  touchEndX : option Z;
  touchEndY : option Z
}.

(** [e.targetTouches[0]]. *)
Record Touch := mkTouch { clientX : Z; clientY : Z }.

Definition onTouchStart (e : Touch) (refs : TouchRefs) : TouchRefs :=
  mkRefs (Some (clientX e)) (Some (clientY e)) None None.

Definition onTouchMove (e : Touch) (refs : TouchRefs) : TouchRefs :=
  mkRefs (touchStartX refs) (touchStartY refs) (Some (clientX e)) (Some (clientY e)).

(** [!r] on a cell of type [number | null]. *)
Definition falsy (r : option Z) : bool :=
  match r with
  | None => true
  | Some v => v =? 0
  end.

(** [r || 0]. *)
Definition orZero (r : option Z) : Z :=
  match r with
  | None => 0
  | Some v => v
  end.

Definition minSwipeDistance : Z := 50.

(** Past the guard both x cells hold a number, which [orZero] reads. *)
Definition onTouchEnd (refs : TouchRefs) (st : AppState) : Step :=
  if (falsy (touchStartX refs) || falsy (touchEndX refs))%bool then (st, [])
  else
    let xDist := orZero (touchStartX refs) - orZero (touchEndX refs) in
    let yDist := orZero (touchStartY refs) - orZero (touchEndY refs) in
    if ((Z.abs xDist >? minSwipeDistance) && (Z.abs xDist >? Z.abs yDist))%bool then
      if xDist >? 0 then handleNextAyah st else handlePrevAyah st
    else (st, []).

(** A whole gesture: touch down at [startPoint], move to [endPoint],
    lift. *)
Definition interpretGesture (startPoint endPoint : Touch)
    (refs : TouchRefs) (st : AppState) : Step :=
  onTouchEnd (onTouchMove endPoint (onTouchStart startPoint refs)) st.

(** ** Composite selections *)

Definition selectSearchResult (surahNum ayahNum : Z) (st : AppState) : Step :=
  let st1 := setViewMode reader st in
  let '(st2, ps) := loadAyah st surahNum ayahNum st1 in
  (setIsSidebarOpen false st2, ps).

Definition selectSurahFromList (surah : Surah) (st : AppState) : Step :=
  let st1 := setViewMode reader st in
  let st2 := setCurrentSurah (Some surah) st1 in
  let '(st3, ps) := loadAyah st (number surah) 1 st2 in
  (setIsSidebarOpen false st3, ps).

(** ** Sidebar filter *)

Definition surahMatches (surahQuery : JsString.t) (s : Surah) : bool :=
  (JsString.includes (JsString.numberToString (number s)) surahQuery
   || JsString.includes (JsString.toLowerCase (englishName s)) (JsString.toLowerCase surahQuery)
   || JsString.includes (JsString.toLowerCase (englishNameTranslation s)) (JsString.toLowerCase surahQuery)
   || JsString.includes (name s) surahQuery)%bool.

Definition filteredSurahs (st : AppState) : list Surah :=
  filter (surahMatches (surahQuery st)) (surahs st).

(** ** What the specification says of the filter *)

(** [hay] contains [q] as a substring. *)
Definition containsText (hay q : JsString.t) : Prop :=
  exists pre post, hay = pre ++ q ++ post.

(** Two texts of the same length that differ at most in letter case. *)
Definition sameIgnoringCase (a b : JsString.t) : Prop :=
  Forall2 (fun x y => JsString.lowerChar x = JsString.lowerChar y) a b.

(** [hay] contains [q] case-insensitively: some substring of [hay] is [q]
    up to letter case. *)
Definition containsIgnoringCase (hay q : JsString.t) : Prop :=
  exists pre w post, hay = pre ++ w ++ post /\ sameIgnoringCase w q.

(** The chapters the specification makes visible for a query. *)
Definition specVisible (q : JsString.t) (s : Surah) : Prop :=
  containsText (JsString.numberToString (number s)) q
  \/ containsIgnoringCase (englishName s) q
  \/ containsIgnoringCase (englishNameTranslation s) q
  \/ containsText (name s) q.

(** [k] is [l] restricted to the elements that satisfy [P], in the order
    and with the multiplicity of [l]. *)
Inductive Selection {A : Type} (P : A -> Prop) : list A -> list A -> Prop :=
| Selection_nil : Selection P [] []
| Selection_keep x l k : P x -> Selection P l k -> Selection P (x :: l) (x :: k)
| Selection_drop x l k : ~ P x -> Selection P l k -> Selection P (x :: l) k.

(** ** What the specification says of a verse position *)

(** The chapter object a request for chapter [surahNum] addresses: the
    current chapter when it has that number, else the entry of the loaded
    list with that number (the resolution [settle] performs). *)
Definition addressed (st : AppState) (surahNum : Z) : option Surah :=
  if needsSurahLookup (currentSurah st) surahNum
  then find (fun s => number s =? surahNum) (surahs st)
  else currentSurah st.

(** The verse index of a requested coordinate lies within the addressed
    chapter. *)
Definition inBounds (st : AppState) (t : Z * Z) : Prop :=
  forall ch, addressed st (fst t) = Some ch -> 1 <= snd t <= numberOfAyahs ch.

Definition isDecimalDigit (c : ascii) : bool :=
  let n := nat_of_ascii c in (Nat.leb 48 n && Nat.leb n 57)%bool.

(** The text is an integer numeral: an optional sign, then decimal digits
    only, at least one. *)
Definition isIntegerText (s : JsString.t) : bool :=
  let digits := snd (JsString.stripSign s) in
  (negb (Nat.eqb (List.length digits) 0) && forallb isDecimalDigit digits)%bool.

Definition digitsOf (d : Decimal.uint) : JsString.t :=
  JsString.lit (NilEmpty.string_of_uint d).

(** The number a digit sequence denotes, read left to right after [acc]. *)
Fixpoint uintValue (d : Decimal.uint) (acc : Z) : Z :=
  match d with
  | Decimal.Nil => acc
  | Decimal.D0 d => uintValue d (10 * acc + 0)
  | Decimal.D1 d => uintValue d (10 * acc + 1)
  | Decimal.D2 d => uintValue d (10 * acc + 2)
  | Decimal.D3 d => uintValue d (10 * acc + 3)
  | Decimal.D4 d => uintValue d (10 * acc + 4)
  | Decimal.D5 d => uintValue d (10 * acc + 5)
  | Decimal.D6 d => uintValue d (10 * acc + 6)
  | Decimal.D7 d => uintValue d (10 * acc + 7)
  | Decimal.D8 d => uintValue d (10 * acc + 8)
  | Decimal.D9 d => uintValue d (10 * acc + 9)
  end.

(** ** Sample data *)

Module Sample.

Definition alFaatiha : Surah :=
  mkSurah 1 (JsString.lit "سُورَةُ ٱلْفَاتِحَةِ") (JsString.lit "Al-Faatiha")
          (JsString.lit "The Opening") 7.

Definition alBaqara : Surah :=
  mkSurah 2 (JsString.lit "سُورَةُ البَقَرَةِ") (JsString.lit "Al-Baqara")
          (JsString.lit "The Cow") 286.

Definition atTawba : Surah :=
  mkSurah 9 (JsString.lit "سُورَةُ التَّوۡبَةِ") (JsString.lit "At-Tawba")
          (JsString.lit "The Repentance") 129.

Definition yusuf : Surah :=
  mkSurah 12 (JsString.lit "سُورَةُ يُوسُفَ") (JsString.lit "Yusuf")
          (JsString.lit "Joseph") 111.

Definition anNaas : Surah :=
  mkSurah 114 (JsString.lit "سُورَةُ النَّاسِ") (JsString.lit "An-Naas")
          (JsString.lit "Mankind") 6.

Definition chapters : list Surah := [alFaatiha; alBaqara; atTawba; yusuf; anNaas].

Definition verse (s a : Z) : AyahDisplayData :=
  mkAyah s a (JsString.lit "Surah") (JsString.lit "...") (JsString.lit "...")
         (JsString.lit "...").

(** Reading chapter [cur] at verse [v], verse record [(number cur, v)]
    on display. *)
Definition reading (cur : Surah) (v : Z) : AppState :=
  mkState chapters (Some cur) v (Some (verse (number cur) v)) [] reader
          false false None.

(** The state before the first navigation. *)
Definition initial : AppState :=
  mkState chapters None 1 None [] search false false None.

(** A provider that knows the verses of [chapters] only. *)
Definition getAyah : Provider :=
  fun s a =>
    match find (fun c => number c =? s) chapters with
    | Some c =>
        if ((1 <=? a) && (a <=? numberOfAyahs c))%bool
        then Resolved (verse s a) else Rejected
    | None => Rejected
    end.

Definition noRefs : TouchRefs := mkRefs None None None None.

End Sample.

(** ** Position and recorded gestures *)

(** The verse index lies within the current chapter. *)
Definition wellPositioned (st : AppState) : Prop :=
  exists c, currentSurah st = Some c /\ 1 <= currentAyahNum st <= numberOfAyahs c.

(** The cells after a touch that starts at [startPoint] and reports the
    positions [moves], one [onTouchMove] each, in order. *)
Definition recordGesture (startPoint : Touch) (moves : list Touch)
    (refs : TouchRefs) : TouchRefs :=
  fold_left (fun r e => onTouchMove e r) moves (onTouchStart startPoint refs).

(** The text begins with a decimal digit. *)
Definition startsWithDigit (s : JsString.t) : bool :=
  match s with
  | c :: _ => isDecimalDigit c
  | [] => false
  end.

(** ** Start-up *)

(** The initial values of the state cells. *)
Definition initialState : AppState :=
  mkState [] None 1 None [] search false false None.

Definition setSurahs (v : list Surah) (st : AppState) : AppState :=
  mkState v (currentSurah st) (currentAyahNum st) (ayahData st) (surahQuery st)
          (viewMode st) (isSidebarOpen st) (isLoadingAyah st) (error st).

(** Outcome of an awaited service call. *)
Inductive Outcome (A : Type) :=
| Fulfilled (value : A)
| Failed.

Arguments Fulfilled {A} value.
Arguments Failed {A}.

Definition listErrorMessage : JsString.t :=
  JsString.lit "Failed to load Surah list. Please check your connection.".

(** [fetchSurahs], given how [QuranService.getAllSurahs] settles. *)
Definition fetchSurahs (getAllSurahs : Outcome (list Surah)) (st : AppState) : AppState :=
  match getAllSurahs with
  | Fulfilled list => setSurahs list st
  | Failed => setError (Some listErrorMessage) st
  end.

(** ** Search, commentary and overview *)

(** [String.prototype.trim]. *)
Definition trim (s : JsString.t) : JsString.t :=
  rev (JsString.trimStart (rev (JsString.trimStart s))).

Module Assistant.

Inductive Language := bn | en.

(** [SearchResult], with the fields the result list reads. *)
Record SearchResult := mkResult {
  resultSurahNumber : Z;
  resultAyahNumber : Z;
  confidenceScore : Z;
  reasoning : JsString.t
}.

(** A call to the generative service. *)
Inductive Call :=
| searchQuran (query : JsString.t) (language : Language)
| generateTafsir (ayah : AyahDisplayData) (language : Language)
| generateSurahOverview (englishName : JsString.t) (number : Z) (language : Language).

Definition noResultsMessage (language : Language) : JsString.t :=
  match language with
  | bn => JsString.lit "কোনো আয়াত পাওয়া যায়নি।"
  | en => JsString.lit "No relevant ayahs found."
  end.

Definition searchFailedMessage (language : Language) : JsString.t :=
  match language with
  | bn => JsString.lit "অনুসন্ধান ব্যর্থ হয়েছে।"
  | en => JsString.lit "Search failed. Please check connection."
  end.

Definition tafsirErrorMessage : JsString.t :=
  JsString.lit "Failed to generate Tafsir.".

Definition overviewErrorMessage : JsString.t :=
  JsString.lit "Failed to load overview.".

Section Generated.

(** The payloads of the two generated texts; the component only stores
    them and hands them to the modals. *)
Variables TafsirData SurahOverviewData : Type.

(** The state cells of the component: those of navigation in [core]. *)
Record State := mkAssist {
  core : AppState;
  language : Language;
  searchQuery : JsString.t;
  searchResults : list SearchResult;
  isSearching : bool;
  isTafsirOpen : bool;
  tafsirData : option TafsirData;
  isLoadingTafsir : bool;
  isOverviewOpen : bool;
  overviewData : option SurahOverviewData;
  isLoadingOverview : bool
}.

(** [setError] on the whole state. *)
Definition setAppError (v : option JsString.t) (st : State) : State :=
  mkAssist (setError v (core st)) (language st) (searchQuery st) (searchResults st)
           (isSearching st) (isTafsirOpen st) (tafsirData st) (isLoadingTafsir st)
           (isOverviewOpen st) (overviewData st) (isLoadingOverview st).

Definition setSearchResults (v : list SearchResult) (st : State) : State :=
  mkAssist (core st) (language st) (searchQuery st) v
           (isSearching st) (isTafsirOpen st) (tafsirData st) (isLoadingTafsir st)
           (isOverviewOpen st) (overviewData st) (isLoadingOverview st).

Definition setIsSearching (v : bool) (st : State) : State :=
  mkAssist (core st) (language st) (searchQuery st) (searchResults st)
           v (isTafsirOpen st) (tafsirData st) (isLoadingTafsir st)
           (isOverviewOpen st) (overviewData st) (isLoadingOverview st).

Definition setIsTafsirOpen (v : bool) (st : State) : State :=
  mkAssist (core st) (language st) (searchQuery st) (searchResults st)
           (isSearching st) v (tafsirData st) (isLoadingTafsir st)
           (isOverviewOpen st) (overviewData st) (isLoadingOverview st).

Definition setTafsirData (v : option TafsirData) (st : State) : State :=
  mkAssist (core st) (language st) (searchQuery st) (searchResults st)
           (isSearching st) (isTafsirOpen st) v (isLoadingTafsir st)
           (isOverviewOpen st) (overviewData st) (isLoadingOverview st).

Definition setIsLoadingTafsir (v : bool) (st : State) : State :=
  mkAssist (core st) (language st) (searchQuery st) (searchResults st)
           (isSearching st) (isTafsirOpen st) (tafsirData st) v
           (isOverviewOpen st) (overviewData st) (isLoadingOverview st).

Definition setIsOverviewOpen (v : bool) (st : State) : State :=
  mkAssist (core st) (language st) (searchQuery st) (searchResults st)
           (isSearching st) (isTafsirOpen st) (tafsirData st) (isLoadingTafsir st)
           v (overviewData st) (isLoadingOverview st).

Definition setOverviewData (v : option SurahOverviewData) (st : State) : State :=
  mkAssist (core st) (language st) (searchQuery st) (searchResults st)
           (isSearching st) (isTafsirOpen st) (tafsirData st) (isLoadingTafsir st)
           (isOverviewOpen st) v (isLoadingOverview st).

Definition setIsLoadingOverview (v : bool) (st : State) : State :=
  mkAssist (core st) (language st) (searchQuery st) (searchResults st)
           (isSearching st) (isTafsirOpen st) (tafsirData st) (isLoadingTafsir st)
           (isOverviewOpen st) (overviewData st) v.

(** A handler run to the end of its request: the final state and the
    calls made to the service. *)
Definition Run := (State * list Call)%type.

(** [handleSearch]; [service] is [GeminiService.searchQuran]. *)
Definition handleSearch
    (service : JsString.t -> Language -> Outcome (list SearchResult))
    (st : State) : Run :=
  match trim (searchQuery st) with
  | [] => (st, [])
  | _ :: _ =>
      let query := searchQuery st in
      let lang := language st in
      let st := setIsSearching true st in
      let st := setSearchResults [] st in
      let st := setAppError None st in
      let st :=
        match service query lang with
        | Fulfilled results =>
            let st := setSearchResults results st in
            match results with
            | [] => setAppError (Some (noResultsMessage lang)) st
            | _ :: _ => st
            end
        | Failed => setAppError (Some (searchFailedMessage lang)) st
        end in
      (setIsSearching false st, [searchQuran query lang])
  end.

(** [handleViewTafsir]; [service] is [GeminiService.generateTafsir]. *)
Definition handleViewTafsir
    (service : AyahDisplayData -> Language -> Outcome TafsirData)
    (st : State) : Run :=
  match ayahData (core st) with
  | None => (st, [])
  | Some ayah =>
      let lang := language st in
      let st := setIsTafsirOpen true st in
      let st := setIsLoadingTafsir true st in
      let st := setTafsirData None st in
      let st :=
        match service ayah lang with
        | Fulfilled tafsir => setTafsirData (Some tafsir) st
        | Failed =>
            let st := setAppError (Some tafsirErrorMessage) st in
            setIsTafsirOpen false st
        end in
      (setIsLoadingTafsir false st, [generateTafsir ayah lang])
  end.

(** [handleSurahOverview]; [service] is
    [GeminiService.generateSurahOverview]. *)
Definition handleSurahOverview
    (service : JsString.t -> Z -> Language -> Outcome SurahOverviewData)
    (st : State) : Run :=
  match currentSurah (core st) with
  | None => (st, [])
  | Some cur =>
      let lang := language st in
      let st := setIsOverviewOpen true st in
      let st := setIsLoadingOverview true st in
      let st := setOverviewData None st in
      let st :=
        match service (englishName cur) (number cur) lang with
        | Fulfilled data => setOverviewData (Some data) st
        | Failed =>
            let st := setAppError (Some overviewErrorMessage) st in
            setIsOverviewOpen false st
        end in
      (setIsLoadingOverview false st,
       [generateSurahOverview (englishName cur) (number cur) lang])
  end.

(** A navigation handler on the whole state: it runs on [core]. *)
Definition navigate (getAyah : Provider) (h : AppState -> Step) (st : State) : State :=
  mkAssist (fst (run getAyah (h (core st)))) (language st) (searchQuery st)
           (searchResults st) (isSearching st) (isTafsirOpen st) (tafsirData st)
           (isLoadingTafsir st) (isOverviewOpen st) (overviewData st)
           (isLoadingOverview st).

End Generated.

Arguments core {TafsirData SurahOverviewData} _.
Arguments language {TafsirData SurahOverviewData} _.
Arguments searchQuery {TafsirData SurahOverviewData} _.
Arguments searchResults {TafsirData SurahOverviewData} _.
Arguments isSearching {TafsirData SurahOverviewData} _.
Arguments isTafsirOpen {TafsirData SurahOverviewData} _.
Arguments tafsirData {TafsirData SurahOverviewData} _.
Arguments isLoadingTafsir {TafsirData SurahOverviewData} _.
Arguments isOverviewOpen {TafsirData SurahOverviewData} _.
Arguments overviewData {TafsirData SurahOverviewData} _.
Arguments isLoadingOverview {TafsirData SurahOverviewData} _.
Arguments handleSearch {TafsirData SurahOverviewData} service st.
Arguments handleViewTafsir {TafsirData SurahOverviewData} service st.
Arguments handleSurahOverview {TafsirData SurahOverviewData} service st.
Arguments navigate {TafsirData SurahOverviewData} getAyah h st.

End Assistant.

(** Sample states of the whole component; the generated payloads are
    plain texts here. *)
Module SampleAssistant.

Definition State := Assistant.State JsString.t JsString.t.

Definition previous : list Assistant.SearchResult :=
  [Assistant.mkResult 2 153 92 (JsString.lit "Seek help through patience.")].

(** In the reader at [(cur, v)], the query typed, earlier results kept. *)
Definition at_ (cur : Surah) (v : Z) (lang : Assistant.Language)
    (query : JsString.t) : State :=
  Assistant.mkAssist JsString.t JsString.t (Sample.reading cur v) lang query
    previous false false None false false None false.

Definition unavailable {A B : Type} : A -> B -> Outcome (list Assistant.SearchResult) :=
  fun _ _ => Failed.

End SampleAssistant.

(** ** Stored preferences *)

Module Preferences.

(** [localStorage]: the stored pairs, at most one per key. *)
Definition Storage := list (JsString.t * JsString.t).

Fixpoint strEqb (a b : JsString.t) : bool :=
  match a, b with
  | [], [] => true
  | x :: a', y :: b' => (Ascii.eqb x y && strEqb a' b')%bool
  | _, _ => false
  end.

Definition getItem (key : JsString.t) (localStorage : Storage) : option JsString.t :=
  match find (fun kv => strEqb (fst kv) key) localStorage with
  | Some kv => Some (snd kv)
  | None => None
  end.

Definition setItem (key value : JsString.t) (localStorage : Storage) : Storage :=
  (key, value) :: filter (fun kv => negb (strEqb (fst kv) key)) localStorage.

(** [key in localStorage]. *)
Definition hasKey (key : JsString.t) (localStorage : Storage) : bool :=
  existsb (fun kv => strEqb (fst kv) key) localStorage.

Definition themeKey : JsString.t := JsString.lit "theme".
Definition arabicKey : JsString.t := JsString.lit "arabicFontSize".
Definition translationKey : JsString.t := JsString.lit "translationFontSize".

(** Initial value of [darkMode]; [prefersDark] is the answer of the
    [(prefers-color-scheme: dark)] media query. *)
Definition initDarkMode (localStorage : Storage) (prefersDark : bool) : bool :=
  (match getItem themeKey localStorage with
   | Some v => strEqb v (JsString.lit "dark")
   | None => false
   end
   || (negb (hasKey themeKey localStorage) && prefersDark))%bool.

(** The dark-mode effect: whether the root element carries the [dark]
    class afterwards, and the storage. *)
Definition applyDarkMode (darkMode : bool) (localStorage : Storage) : bool * Storage :=
  if darkMode
  then (true, setItem themeKey (JsString.lit "dark") localStorage)
  else (false, setItem themeKey (JsString.lit "light") localStorage).

(** [stored || fallback] on the answer of [getItem]. *)
Definition orDefault (stored : option JsString.t) (fallback : JsString.t) : JsString.t :=
  match stored with
  | None => fallback
  | Some [] => fallback
  | Some v => v
  end.

(** Initial values of the two font sizes; [None] is [NaN]. *)
Definition initArabicFontSize (localStorage : Storage) : option Z :=
  JsString.parseInt (orDefault (getItem arabicKey localStorage) (JsString.lit "36")).

Definition initTranslationFontSize (localStorage : Storage) : option Z :=
  JsString.parseInt (orDefault (getItem translationKey localStorage) (JsString.lit "18")).

(** [toString] of a size cell. *)
Definition sizeToString (size : option Z) : JsString.t :=
  match size with
  | Some n => JsString.numberToString n
  | None => JsString.lit "NaN"
  end.

(** The font effect. *)
Definition persistFonts (arabicFontSize translationFontSize : option Z)
    (localStorage : Storage) : Storage :=
  let localStorage := setItem arabicKey (sizeToString arabicFontSize) localStorage in
  setItem translationKey (sizeToString translationFontSize) localStorage.

End Preferences.

(** * Properties *)

(** ** Strings *)

Lemma startsWith_iff (s prefix : JsString.t) :
  JsString.startsWith s prefix = true <-> exists post, s = prefix ++ post.
Proof.
  revert s; induction prefix as [|p prefix IH]; intros s; simpl.
  - split; [intros _; exists s; reflexivity | reflexivity].
  - destruct s as [|c s].
    + split; [discriminate | intros [post H]; discriminate].
    + rewrite andb_true_iff, Ascii.eqb_eq, IH. split.
      * intros [-> [post ->]]. exists post. reflexivity.
      * intros [post H]. injection H as -> ->. split; [reflexivity | exists post; reflexivity].
Qed.

Lemma includes_iff (s q : JsString.t) :
  JsString.includes s q = true <-> containsText s q.
Proof.
  unfold containsText. induction s as [|c s IH].
  - simpl. rewrite orb_false_r, startsWith_iff. split.
    + intros [post H]. exists [], post. exact H.
    + intros [pre [post H]]. destruct pre; [exists post; exact H | discriminate].
  - cbn [JsString.includes]. rewrite orb_true_iff, startsWith_iff, IH. split.
    + intros [[post H] | [pre [post H]]].
      * exists [], post. exact H.
      * exists (c :: pre), post. rewrite H. reflexivity.
    + intros [pre [post H]]. destruct pre as [|c' pre].
      * left. exists post. exact H.
      * right. injection H as _ H. exists pre, post. exact H.
Qed.

Lemma includes_empty (s : JsString.t) : JsString.includes s [] = true.
Proof. apply includes_iff. exists [], s. reflexivity. Qed.

Lemma sameIgnoringCase_iff (a b : JsString.t) :
  sameIgnoringCase a b <-> JsString.toLowerCase a = JsString.toLowerCase b.
Proof.
  unfold sameIgnoringCase, JsString.toLowerCase. split.
  - induction 1 as [|x y a b Hxy _ IH]; simpl; congruence.
  - revert b; induction a as [|x a IH]; intros [|y b] H; simpl in H;
      try discriminate; constructor.
    + congruence.
    + apply IH. congruence.
Qed.

Lemma includes_lower_iff (hay q : JsString.t) :
  JsString.includes (JsString.toLowerCase hay) (JsString.toLowerCase q) = true
  <-> containsIgnoringCase hay q.
Proof.
  rewrite includes_iff. unfold containsText, containsIgnoringCase. split.
  - intros [pre' [post' H]]. unfold JsString.toLowerCase in H.
    apply map_eq_app in H. destruct H as [pre [rest [-> [Hpre Hrest]]]].
    apply map_eq_app in Hrest. destruct Hrest as [w [post [-> [Hw Hpost]]]].
    exists pre, w, post. split; [reflexivity|].
    apply sameIgnoringCase_iff. exact Hw.
  - intros [pre [w [post [-> Hw]]]]. apply sameIgnoringCase_iff in Hw.
    exists (JsString.toLowerCase pre), (JsString.toLowerCase post).
    rewrite <- Hw. unfold JsString.toLowerCase. rewrite !map_app. reflexivity.
Qed.

Lemma surahMatches_iff (q : JsString.t) (s : Surah) :
  surahMatches q s = true <-> specVisible q s.
Proof.
  unfold surahMatches, specVisible.
  rewrite !orb_true_iff, !includes_lower_iff, !includes_iff. tauto.
Qed.

Lemma filter_Selection {A : Type} (f : A -> bool) (P : A -> Prop) (l : list A) :
  (forall x, f x = true <-> P x) -> Selection P l (filter f l).
Proof.
  intros Hf. induction l as [|x l IH]; simpl.
  - constructor.
  - destruct (f x) eqn:E.
    + apply Selection_keep; [apply Hf; exact E | exact IH].
    + apply Selection_drop; [|exact IH].
      intros HP. apply Hf in HP. congruence.
Qed.



(** ** Sequential navigation *)

Lemma loadAyah_targets (render st : AppState) (s a : Z) :
  targets (loadAyah render s a st) = [(s, a)].
Proof. reflexivity. Qed.

(** A resolved request puts the verse on display and moves the position
    to the requested verse; the chapter object is looked up in the list
    when the request left the chapter the closure had captured. *)
Lemma loadAyah_resolved (getAyah : Provider) (st : AppState) (s a : Z) (data : AyahDisplayData) :
  getAyah s a = Resolved data ->
  let st' := fst (run getAyah (loadAyah st s a st)) in
  ayahData st' = Some data
  /\ currentAyahNum st' = a
  /\ isLoadingAyah st' = false
  /\ error st' = None
  /\ currentSurah st' =
     (if needsSurahLookup (currentSurah st) s
      then match find (fun x => number x =? s) (surahs st) with
           | Some foundSurah => Some foundSurah
           | None => currentSurah st
           end
      else currentSurah st).
Proof.
  intros Hres. unfold run, loadAyah. cbn [fst snd fold_left p_surahNum p_ayahNum].
  rewrite Hres. unfold settle. cbn [p_currentSurah p_surahs p_surahNum p_ayahNum].
  destruct (needsSurahLookup (currentSurah st) s);
    [destruct (find _ (surahs st))|]; repeat split.
Qed.

Example next_crosses_chapter :
  let st' := fst (run Sample.getAyah (handleNextAyah (Sample.reading Sample.alFaatiha 7))) in
  currentSurah st' = Some Sample.alBaqara /\ currentAyahNum st' = 1.
Proof. split; reflexivity. Qed.

Example prev_lands_on_first_verse :
  let st' := fst (run Sample.getAyah (handlePrevAyah (Sample.reading Sample.alBaqara 1))) in
  currentSurah st' = Some Sample.alFaatiha /\ currentAyahNum st' = 1.
Proof. split; reflexivity. Qed.

(** C1.  With a current chapter [c] and verse index [v], the next-verse
    handler requests verse [v + 1] of [c] when [v] is below the verse
    count of [c]; requests verse 1 of chapter [number c + 1] when [v] is
    the verse count and [c] is not chapter 114; and does nothing (no
    request, same state) when [v] is the verse count of chapter 114. *)
Theorem handleNextAyah_cases (st : AppState) (c : Surah) :
  currentSurah st = Some c ->
  (currentAyahNum st < numberOfAyahs c ->
     handleNextAyah st = loadAyah st (number c) (currentAyahNum st + 1) st)
  /\ (currentAyahNum st = numberOfAyahs c -> number c < 114 ->
     handleNextAyah st = loadAyah st (number c + 1) 1 st)
  /\ (currentAyahNum st = numberOfAyahs c -> number c = 114 ->
     handleNextAyah st = (st, [])).
Proof.
  intros Hc. unfold handleNextAyah. rewrite Hc.
  split; [|split].
  - intros Hlt. apply Z.ltb_lt in Hlt. rewrite Hlt. reflexivity.
  - intros Heq Hid. rewrite Heq, Z.ltb_irrefl.
    apply Z.ltb_lt in Hid. rewrite Hid. reflexivity.
  - intros Heq Hid. rewrite Heq, Z.ltb_irrefl, Hid. reflexivity.
Qed.

Lemma handleNextAyah_cases_witness :
  (let st := Sample.reading Sample.alFaatiha 3 in
   targets (handleNextAyah st) = [(1, 4)])
  /\ (let st := Sample.reading Sample.alFaatiha 7 in
      targets (handleNextAyah st) = [(2, 1)])
  /\ (let st := Sample.reading Sample.anNaas 6 in
      handleNextAyah st = (st, [])).
Proof.
  split; [|split]; intros st.
  - rewrite (proj1 (handleNextAyah_cases st Sample.alFaatiha eq_refl)).
    + reflexivity.
    + simpl. lia.
  - rewrite (proj1 (proj2 (handleNextAyah_cases st Sample.alFaatiha eq_refl))).
    + reflexivity.
    + reflexivity.
    + simpl. lia.
  - apply (proj2 (proj2 (handleNextAyah_cases st Sample.anNaas eq_refl)));
      reflexivity.
Defined.

(** C2.  With a current chapter [c] and verse index [v], the previous-verse
    handler requests verse [v - 1] of [c] when [v > 1]; requests verse 1
    (not the last verse) of chapter [number c - 1] when [v = 1] and [c] is
    not chapter 1; and does nothing when [v = 1] in chapter 1. *)
Theorem handlePrevAyah_cases (st : AppState) (c : Surah) :
  currentSurah st = Some c ->
  (currentAyahNum st > 1 ->
     handlePrevAyah st = loadAyah st (number c) (currentAyahNum st - 1) st)
  /\ (currentAyahNum st = 1 -> number c > 1 ->
     handlePrevAyah st = loadAyah st (number c - 1) 1 st)
  /\ (currentAyahNum st = 1 -> number c = 1 ->
     handlePrevAyah st = (st, [])).
Proof.
  intros Hc. unfold handlePrevAyah. rewrite Hc, !Z.gtb_ltb.
  split; [|split].
  - intros Hgt. apply Z.gt_lt, Z.ltb_lt in Hgt. rewrite Hgt. reflexivity.
  - intros Heq Hid. rewrite Heq, Z.ltb_irrefl.
    apply Z.gt_lt, Z.ltb_lt in Hid. rewrite Hid. reflexivity.
  - intros Heq Hid. rewrite Heq, Z.ltb_irrefl, Hid. reflexivity.
Qed.

Lemma handlePrevAyah_cases_witness :
  (let st := Sample.reading Sample.alBaqara 5 in
   targets (handlePrevAyah st) = [(2, 4)])
  /\ (let st := Sample.reading Sample.alBaqara 1 in
      targets (handlePrevAyah st) = [(1, 1)])
  /\ (let st := Sample.reading Sample.alFaatiha 1 in
      handlePrevAyah st = (st, [])).
Proof.
  split; [|split]; intros st.
  - rewrite (proj1 (handlePrevAyah_cases st Sample.alBaqara eq_refl)).
    + reflexivity.
    + simpl. lia.
  - rewrite (proj1 (proj2 (handlePrevAyah_cases st Sample.alBaqara eq_refl))).
    + reflexivity.
    + reflexivity.
    + simpl. lia.
  - apply (proj2 (proj2 (handlePrevAyah_cases st Sample.alFaatiha eq_refl)));
      reflexivity.
Defined.

(** C9.  While no current chapter is set, the next-verse handler, the
    previous-verse handler and the jump handler (on any input text) do
    nothing: they issue no request and leave the state as it is. *)
Theorem no_current_surah_noop (st : AppState) :
  currentSurah st = None ->
  handleNextAyah st = (st, [])
  /\ handlePrevAyah st = (st, [])
  /\ (forall value, handleJumpToAyah value st = (st, [])).
Proof.
  intros Hc. unfold handleNextAyah, handlePrevAyah, handleJumpToAyah.
  rewrite Hc. auto.
Qed.

Lemma no_current_surah_noop_witness :
  let st := Sample.initial in
  handleNextAyah st = (st, [])
  /\ handlePrevAyah st = (st, [])
  /\ (forall value, handleJumpToAyah value st = (st, [])).
Proof.
  intros st. apply (no_current_surah_noop st). reflexivity.
Defined.

(** ** A rejected verse request *)

(** C5.  When the provider rejects the request of [loadAyah] for
    [(s, a)], the verse record on display, the current chapter and the
    current verse index are what they were before the call, the error cell
    holds the (non-empty) load message, the loading flag ends false, and
    the provider was asked exactly once. *)
Theorem loadAyah_rejected (getAyah : Provider) (render st : AppState) (s a : Z) :
  getAyah s a = Rejected ->
  let r := run getAyah (loadAyah render s a st) in
  ayahData (fst r) = ayahData st
  /\ currentSurah (fst r) = currentSurah st
  /\ currentAyahNum (fst r) = currentAyahNum st
  /\ error (fst r) = Some loadErrorMessage
  /\ loadErrorMessage <> []
  /\ isLoadingAyah (fst r) = false
  /\ snd r = [(s, a)].
Proof.
  intros Hrej. unfold run, loadAyah. cbn [fst snd fold_left p_surahNum p_ayahNum].
  rewrite Hrej. unfold settle. simpl.
  repeat split. discriminate.
Qed.

Lemma loadAyah_rejected_witness :
  let st := Sample.reading Sample.alFaatiha 3 in
  let r := run Sample.getAyah (loadAyah st 9 999 st) in
  Sample.getAyah 9 999 = Rejected
  /\ ayahData (fst r) = Some (Sample.verse 1 3)
  /\ currentSurah (fst r) = Some Sample.alFaatiha
  /\ currentAyahNum (fst r) = 3
  /\ error (fst r) = Some loadErrorMessage
  /\ isLoadingAyah (fst r) = false
  /\ snd r = [(9, 999)].
Proof.
  intros st r. split; [reflexivity|].
  pose proof (loadAyah_rejected Sample.getAyah st st 9 999 eq_refl) as H.
  cbv zeta in H. fold r in H. tauto.
Defined.

(** ** Swipe gestures *)

(** The distances [onTouchEnd] computes for a recorded gesture are the
    displacements from start to end with the sign reversed. *)
Lemma interpretGesture_unfold (startPoint endPoint : Touch) (refs : TouchRefs) (st : AppState) :
  interpretGesture startPoint endPoint refs st =
  if ((clientX startPoint =? 0) || (clientX endPoint =? 0))%bool then (st, [])
  else
    let xDist := clientX startPoint - clientX endPoint in
    let yDist := clientY startPoint - clientY endPoint in
    if ((Z.abs xDist >? minSwipeDistance) && (Z.abs xDist >? Z.abs yDist))%bool then
      if xDist >? 0 then handleNextAyah st else handlePrevAyah st
    else (st, []).
Proof. reflexivity. Qed.

Lemma abs_reversed (a b : Z) : Z.abs (a - b) = Z.abs (b - a).
Proof. lia. Qed.

(** C6 fails as stated: a swipe to the right (dx = 80 > 0, dy = 0) calls
    the previous-verse handler, not the next-verse handler. *)
Lemma swipe_right_retreats :
  let startPoint := mkTouch 100 200 in
  let endPoint := mkTouch 180 200 in
  let dx := clientX endPoint - clientX startPoint in
  let dy := clientY endPoint - clientY startPoint in
  let st := Sample.reading Sample.alBaqara 5 in
  Z.abs dx > 50 /\ Z.abs dx > Z.abs dy /\ dx > 0
  /\ interpretGesture startPoint endPoint Sample.noRefs st <> handleNextAyah st
  /\ targets (interpretGesture startPoint endPoint Sample.noRefs st) = [(2, 4)]
  /\ targets (handleNextAyah st) = [(2, 6)].
Proof.
  cbv zeta. repeat split; try (vm_compute; congruence).
Qed.

(** C6, amended.  For a gesture whose two recorded x-coordinates are not
    zero, with dx and dy the displacements from start to end: if
    [|dx| > 50] and [|dx| > |dy|], the gesture calls the next-verse
    handler when [dx < 0] (swipe to the left) and the previous-verse
    handler when [dx > 0] (swipe to the right). *)
Theorem swipe_direction (startPoint endPoint : Touch) (refs : TouchRefs) (st : AppState) :
  let dx := clientX endPoint - clientX startPoint in
  let dy := clientY endPoint - clientY startPoint in
  clientX startPoint <> 0 -> clientX endPoint <> 0 ->
  Z.abs dx > 50 -> Z.abs dx > Z.abs dy ->
  (dx < 0 -> interpretGesture startPoint endPoint refs st = handleNextAyah st)
  /\ (dx > 0 -> interpretGesture startPoint endPoint refs st = handlePrevAyah st).
Proof.
  intros dx dy Hs He Hx Hy. rewrite interpretGesture_unfold.
  apply Z.eqb_neq in Hs, He. rewrite Hs, He. cbn [orb]. cbv zeta.
  rewrite (abs_reversed (clientX startPoint)), (abs_reversed (clientY startPoint)).
  fold dx dy. unfold minSwipeDistance. rewrite !Z.gtb_ltb.
  replace (50 <? Z.abs dx) with true by (symmetry; apply Z.ltb_lt; lia).
  replace (Z.abs dy <? Z.abs dx) with true by (symmetry; apply Z.ltb_lt; lia).
  cbn [andb]. split; intros Hd.
  - replace (0 <? clientX startPoint - clientX endPoint) with true
      by (symmetry; apply Z.ltb_lt; unfold dx in Hd; lia).
    reflexivity.
  - replace (0 <? clientX startPoint - clientX endPoint) with false
      by (symmetry; apply Z.ltb_ge; unfold dx in Hd; lia).
    reflexivity.
Qed.

Lemma swipe_direction_witness :
  let st := Sample.reading Sample.alBaqara 5 in
  interpretGesture (mkTouch 180 200) (mkTouch 100 210) Sample.noRefs st = handleNextAyah st
  /\ interpretGesture (mkTouch 100 200) (mkTouch 180 210) Sample.noRefs st = handlePrevAyah st.
Proof.
  intros st. split.
  - apply (swipe_direction (mkTouch 180 200) (mkTouch 100 210) Sample.noRefs st);
      simpl; lia.
  - apply (swipe_direction (mkTouch 100 200) (mkTouch 180 210) Sample.noRefs st);
      simpl; lia.
Defined.

(** C7.  A gesture whose displacements satisfy [|dx| <= 50] or
    [|dx| <= |dy|] triggers no navigation: no handler runs, no request is
    issued and the state is unchanged. *)
Theorem swipe_ignored (startPoint endPoint : Touch) (refs : TouchRefs) (st : AppState) :
  let dx := clientX endPoint - clientX startPoint in
  let dy := clientY endPoint - clientY startPoint in
  Z.abs dx <= 50 \/ Z.abs dx <= Z.abs dy ->
  interpretGesture startPoint endPoint refs st = (st, []).
Proof.
  intros dx dy H. rewrite interpretGesture_unfold.
  destruct (_ || _)%bool; [reflexivity|]. cbv zeta.
  rewrite (abs_reversed (clientX startPoint)), (abs_reversed (clientY startPoint)).
  fold dx dy. unfold minSwipeDistance. rewrite !Z.gtb_ltb.
  destruct H as [H | H].
  - replace (50 <? Z.abs dx) with false by (symmetry; apply Z.ltb_ge; lia).
    reflexivity.
  - replace (Z.abs dy <? Z.abs dx) with false by (symmetry; apply Z.ltb_ge; lia).
    rewrite andb_false_r. reflexivity.
Qed.

Lemma swipe_ignored_witness :
  let st := Sample.reading Sample.alBaqara 5 in
  interpretGesture (mkTouch 100 200) (mkTouch 130 200) Sample.noRefs st = (st, [])
  /\ interpretGesture (mkTouch 100 200) (mkTouch 160 270) Sample.noRefs st = (st, []).
Proof.
  intros st. split.
  - apply (swipe_ignored (mkTouch 100 200) (mkTouch 130 200) Sample.noRefs st).
    left. simpl. lia.
  - apply (swipe_ignored (mkTouch 100 200) (mkTouch 160 270) Sample.noRefs st).
    right. simpl. lia.
Defined.

(** C10.  A gesture whose start or end x-coordinate is exactly 0 triggers
    no navigation whatever its displacements, just as a touch that ends
    with no end point recorded (the cell still null): the guard of
    [onTouchEnd] does not tell a zero from a null cell. *)
Theorem zero_coordinate_ignored (startPoint endPoint : Touch) (refs : TouchRefs) (st : AppState) :
  clientX startPoint = 0 \/ clientX endPoint = 0 ->
  interpretGesture startPoint endPoint refs st = (st, [])
  /\ onTouchEnd (onTouchStart startPoint refs) st = (st, [])
  /\ falsy (Some 0) = falsy None.
Proof.
  intros H. split; [|split].
  - rewrite interpretGesture_unfold. destruct H as [-> | ->]; simpl.
    + reflexivity.
    + rewrite orb_true_r. reflexivity.
  - unfold onTouchEnd, onTouchStart. simpl. rewrite orb_true_r. reflexivity.
  - reflexivity.
Qed.

Lemma zero_coordinate_ignored_witness :
  let st := Sample.reading Sample.alBaqara 5 in
  let dx := 0 - 300 in
  Z.abs dx > 50 /\ Z.abs dx > Z.abs (200 - 200)
  /\ interpretGesture (mkTouch 300 200) (mkTouch 0 200) Sample.noRefs st = (st, []).
Proof.
  intros st dx. split; [unfold dx; simpl; lia|]. split; [unfold dx; simpl; lia|].
  apply (zero_coordinate_ignored (mkTouch 300 200) (mkTouch 0 200) Sample.noRefs st).
  right. reflexivity.
Defined.

(** ** Jump to a verse *)

Lemma parseDigits_digitsOf (d : Decimal.uint) (a : Z) :
  JsString.parseDigits 10 (Some a) (digitsOf d) = Some (uintValue d a).
Proof.
  revert a; induction d; intros a; try reflexivity; exact (IHd _).
Qed.

Lemma parseDigits_digitsOf_start (d : Decimal.uint) :
  d <> Decimal.Nil ->
  JsString.parseDigits 10 None (digitsOf d) = Some (uintValue d 0).
Proof.
  destruct d; intros Hd; try congruence; exact (parseDigits_digitsOf d _).
Qed.

Lemma uintValue_acc (d : Decimal.uint) (p : positive) :
  uintValue d (Z.pos p) = Z.pos (Pos.of_uint_acc d p).
Proof.
  revert p; induction d; intros p; cbn [uintValue Pos.of_uint_acc];
    try reflexivity; rewrite <- IHd; f_equal; lia.
Qed.

Lemma uintValue_zero (d : Decimal.uint) :
  uintValue d 0 = Z.of_N (Pos.of_uint d).
Proof.
  induction d; cbn [uintValue Pos.of_uint Z.of_N]; try reflexivity;
    try exact IHd; rewrite <- uintValue_acc; reflexivity.
Qed.

Lemma digitsOf_plain (d : Decimal.uint) :
  d <> Decimal.Nil ->
  JsString.trimStart (digitsOf d) = digitsOf d
  /\ JsString.stripSign (digitsOf d) = (1, digitsOf d)
  /\ JsString.stripHexPrefix (digitsOf d) = (10, digitsOf d).
Proof.
  destruct d as [|d|d|d|d|d|d|d|d|d|d]; intros Hd; try congruence;
    (split; [reflexivity | split; [reflexivity|]]); try reflexivity.
  destruct d; reflexivity.
Qed.

Lemma parseInt_digitsOf (p : positive) :
  JsString.parseInt (digitsOf (Pos.to_uint p)) = Some (Z.pos p)
  /\ JsString.parseInt ("-"%char :: digitsOf (Pos.to_uint p)) = Some (Z.neg p).
Proof.
  pose proof (Unsigned.to_uint_nonnil p) as Hnil.
  destruct (digitsOf_plain _ Hnil) as [Ht [Hs Hx]].
  pose proof (parseDigits_digitsOf_start _ Hnil) as Hp.
  rewrite uintValue_zero, Unsigned.of_to in Hp.
  unfold JsString.parseInt. split.
  - rewrite Ht, Hs, Hx, Hp. reflexivity.
  - cbn [JsString.trimStart].
    change (JsString.isWhiteSpace "-") with false. cbv iota.
    cbn [JsString.stripSign]. rewrite Hx, Hp. reflexivity.
Qed.

Lemma parseInt_numberToString (n : Z) :
  JsString.parseInt (JsString.numberToString n) = Some n.
Proof.
  destruct n as [|p|p]; [reflexivity| |];
    unfold JsString.numberToString, Z.to_int, NilZero.string_of_int,
      NilZero.string_of_uint;
    pose proof (Unsigned.to_uint_nonnil p) as Hnil;
    destruct (Pos.to_uint p) eqn:E; try congruence; rewrite <- E;
    apply parseInt_digitsOf.
Qed.

(** C4 fails as stated: on the input text 3.7, which is not an integer,
    the jump handler requests verse 3 of the current chapter. *)
Lemma jump_fractional_text :
  let st := Sample.reading Sample.alFaatiha 1 in
  let value := JsString.lit "3.7" in
  isIntegerText value = false
  /\ handleJumpToAyah value st <> (st, [])
  /\ targets (handleJumpToAyah value st) = [(1, 3)].
Proof.
  cbv zeta. split; [reflexivity|]. split; [|reflexivity].
  intros H. apply (f_equal snd) in H. vm_compute in H. discriminate.
Qed.

(** C4, amended.  With a current chapter [c], the jump handler reads the
    input text with [parseInt]: it does nothing when the text has no
    leading integer (NaN), or when the integer [n] read is at most 0 or
    above the verse count of [c]; otherwise it behaves as
    [loadAyah (number c) n].  On the decimal text of an integer [v] the
    integer read is [v] itself. *)
Theorem handleJumpToAyah_cases (st : AppState) (c : Surah) (value : JsString.t) :
  currentSurah st = Some c ->
  (JsString.parseInt value = None -> handleJumpToAyah value st = (st, []))
  /\ (forall n, JsString.parseInt value = Some n ->
        n <= 0 \/ n > numberOfAyahs c ->
        handleJumpToAyah value st = (st, []))
  /\ (forall n, JsString.parseInt value = Some n ->
        0 < n <= numberOfAyahs c ->
        handleJumpToAyah value st = loadAyah st (number c) n st)
  /\ (forall v, JsString.parseInt (JsString.numberToString v) = Some v).
Proof.
  intros Hc. unfold handleJumpToAyah. rewrite Hc.
  split; [|split; [|split]].
  - intros ->. reflexivity.
  - intros n -> Hn. rewrite Z.gtb_ltb.
    destruct (Z.ltb_spec 0 n); [|reflexivity].
    destruct (Z.leb_spec n (numberOfAyahs c)); [lia | reflexivity].
  - intros n -> [Hlo Hhi]. rewrite Z.gtb_ltb.
    apply Z.ltb_lt in Hlo. apply Z.leb_le in Hhi. rewrite Hlo, Hhi. reflexivity.
  - exact parseInt_numberToString.
Qed.

Lemma handleJumpToAyah_cases_witness :
  let st := Sample.reading Sample.alFaatiha 1 in
  handleJumpToAyah (JsString.lit "abc") st = (st, [])
  /\ handleJumpToAyah (JsString.lit "8") st = (st, [])
  /\ handleJumpToAyah (JsString.lit "5") st = loadAyah st 1 5 st.
Proof.
  intros st.
  pose proof (handleJumpToAyah_cases st Sample.alFaatiha (JsString.lit "abc") eq_refl) as Ha.
  pose proof (handleJumpToAyah_cases st Sample.alFaatiha (JsString.lit "8") eq_refl) as Hb.
  pose proof (handleJumpToAyah_cases st Sample.alFaatiha (JsString.lit "5") eq_refl) as Hc.
  split; [|split].
  - apply (proj1 Ha). reflexivity.
  - apply (proj1 (proj2 Hb) 8); [reflexivity | right; simpl; lia].
  - apply (proj1 (proj2 (proj2 Hc)) 5); [reflexivity | simpl; lia].
Defined.

(** ** Bounds of the requested positions *)

Lemma inBounds_current (st : AppState) (c : Surah) (a : Z) :
  currentSurah st = Some c -> 1 <= a <= numberOfAyahs c ->
  inBounds st (number c, a).
Proof.
  intros Hc Ha ch. unfold addressed. cbn [fst snd]. rewrite Hc. cbn [needsSurahLookup].
  rewrite Z.eqb_refl. cbn [negb]. intros [= <-]. exact Ha.
Qed.

Lemma inBounds_first (st : AppState) (s : Z) :
  (forall x, In x (surahs st) -> 1 <= numberOfAyahs x) ->
  needsSurahLookup (currentSurah st) s = true ->
  inBounds st (s, 1).
Proof.
  intros Hl Hn ch. unfold addressed. cbn [fst snd]. rewrite Hn.
  intros Hf. apply find_some in Hf. destruct Hf as [Hin _].
  specialize (Hl ch Hin). lia.
Qed.

Lemma needsSurahLookup_other (c : Surah) (s : Z) :
  number c <> s -> needsSurahLookup (Some c) s = true.
Proof. intros H. apply Z.eqb_neq in H. simpl. rewrite H. reflexivity. Qed.

(** C3 fails as stated: selecting the search result (9, 999) sends that
    coordinate to the provider although chapter 9 has 129 verses. *)
Lemma search_result_unchecked :
  let st := Sample.reading Sample.alFaatiha 3 in
  addressed st 9 = Some Sample.atTawba
  /\ numberOfAyahs Sample.atTawba = 129
  /\ snd (run Sample.getAyah (selectSearchResult 9 999 st)) = [(9, 999)]
  /\ ~ Forall (inBounds st) (targets (selectSearchResult 9 999 st)).
Proof.
  cbv zeta. split; [reflexivity|]. split; [reflexivity|]. split; [reflexivity|].
  intros H. inversion H as [|t l Hb _]; subst.
  specialize (Hb Sample.atTawba eq_refl). simpl in Hb. lia.
Qed.

(** C3, amended.  From a state whose verse index lies within the current
    chapter and whose loaded chapters each have at least one verse, every
    coordinate requested by the next-verse, previous-verse and jump
    handlers has its verse index within the chapter it addresses; choosing
    a chapter with at least one verse from the list requests its verse 1;
    selecting a search result passes its coordinate on as it is, with no
    bound check. *)
Theorem navigation_targets (st : AppState) (c ch : Surah) (value : JsString.t) (s a : Z) :
  currentSurah st = Some c ->
  1 <= currentAyahNum st <= numberOfAyahs c ->
  (forall x, In x (surahs st) -> 1 <= numberOfAyahs x) ->
  1 <= numberOfAyahs ch ->
  Forall (inBounds st) (targets (handleNextAyah st))
  /\ Forall (inBounds st) (targets (handlePrevAyah st))
  /\ Forall (inBounds st) (targets (handleJumpToAyah value st))
  /\ (targets (selectSurahFromList ch st) = [(number ch, 1)]
      /\ inBounds (setCurrentSurah (Some ch) st) (number ch, 1))
  /\ targets (selectSearchResult s a st) = [(s, a)].
Proof.
  intros Hc Hv Hl Hch. split; [|split; [|split; [|split]]].
  - unfold handleNextAyah. rewrite Hc.
    destruct (Z.ltb_spec (currentAyahNum st) (numberOfAyahs c)).
    + rewrite loadAyah_targets. apply Forall_cons; [|apply Forall_nil]. apply inBounds_current; [exact Hc | lia].
    + destruct (Z.ltb_spec (number c) 114); [|apply Forall_nil].
      rewrite loadAyah_targets. apply Forall_cons; [|apply Forall_nil]. apply inBounds_first; [exact Hl|].
      rewrite Hc. apply needsSurahLookup_other. lia.
  - unfold handlePrevAyah. rewrite Hc, !Z.gtb_ltb.
    destruct (Z.ltb_spec 1 (currentAyahNum st)).
    + rewrite loadAyah_targets. apply Forall_cons; [|apply Forall_nil]. apply inBounds_current; [exact Hc | lia].
    + destruct (Z.ltb_spec 1 (number c)); [|apply Forall_nil].
      rewrite loadAyah_targets. apply Forall_cons; [|apply Forall_nil]. apply inBounds_first; [exact Hl|].
      rewrite Hc. apply needsSurahLookup_other. lia.
  - unfold handleJumpToAyah. rewrite Hc.
    destruct (JsString.parseInt value) as [num|]; [|apply Forall_nil].
    rewrite Z.gtb_ltb.
    destruct (Z.ltb_spec 0 num); [|apply Forall_nil].
    destruct (Z.leb_spec num (numberOfAyahs c)); [|apply Forall_nil].
    cbn [andb]. rewrite loadAyah_targets. apply Forall_cons; [|apply Forall_nil]. apply inBounds_current; [exact Hc | lia].
  - split; [reflexivity|].
    apply inBounds_current; [reflexivity | lia].
  - reflexivity.
Qed.

Lemma navigation_targets_witness :
  let st := Sample.reading Sample.alFaatiha 7 in
  targets (handleNextAyah st) = [(2, 1)]
  /\ addressed st 2 = Some Sample.alBaqara
  /\ Forall (inBounds st) (targets (handleNextAyah st))
  /\ Forall (inBounds st) (targets (handlePrevAyah st))
  /\ Forall (inBounds st) (targets (handleJumpToAyah (JsString.lit "4") st))
  /\ targets (selectSurahFromList Sample.yusuf st) = [(12, 1)]
  /\ targets (selectSearchResult 9 999 st) = [(9, 999)].
Proof.
  intros st. split; [reflexivity|]. split; [reflexivity|].
  assert (Hl : forall x, In x (surahs st) -> 1 <= numberOfAyahs x).
  { intros x Hx. simpl in Hx.
    repeat (destruct Hx as [<- | Hx]; [simpl; lia|]). destruct Hx. }
  assert (Hv : 1 <= currentAyahNum st <= numberOfAyahs Sample.alFaatiha)
    by (simpl; lia).
  assert (Hy : 1 <= numberOfAyahs Sample.yusuf) by (simpl; lia).
  pose proof (navigation_targets st Sample.alFaatiha Sample.yusuf
                (JsString.lit "4") 9 999 eq_refl Hv Hl Hy) as H.
  destruct H as [H1 [H2 [H3 [[H4 _] H5]]]].
  repeat split; assumption.
Defined.

(** * Further properties of the component *)

(** ** What a settled request changes *)

Lemma settle_fields (p : Pending) (r : Response) (st : AppState) :
  let st' := settle p r st in
  isLoadingAyah st' = false
  /\ viewMode st' = viewMode st
  /\ isSidebarOpen st' = isSidebarOpen st
  /\ surahs st' = surahs st
  /\ surahQuery st' = surahQuery st
  /\ match r with
     | Rejected =>
         currentSurah st' = currentSurah st
         /\ currentAyahNum st' = currentAyahNum st
         /\ ayahData st' = ayahData st
         /\ error st' = Some loadErrorMessage
     | Resolved data =>
         currentAyahNum st' = p_ayahNum p
         /\ ayahData st' = Some data
         /\ error st' = error st
         /\ currentSurah st' =
            (if needsSurahLookup (p_currentSurah p) (p_surahNum p)
             then match find (fun x => number x =? p_surahNum p) (p_surahs p) with
                  | Some foundSurah => Some foundSurah
                  | None => currentSurah st
                  end
             else currentSurah st)
     end.
Proof.
  unfold settle. destruct r as [data|]; cbv zeta.
  - destruct (needsSurahLookup (p_currentSurah p) (p_surahNum p));
      [destruct (find _ (p_surahs p))|]; repeat split.
  - repeat split.
Qed.

Lemma find_number (l : list Surah) (s : Z) (f : Surah) :
  find (fun x => number x =? s) l = Some f -> In f l /\ number f = s.
Proof.
  intros H. apply find_some in H. destruct H as [Hin Heq].
  split; [exact Hin | apply Z.eqb_eq; exact Heq].
Qed.

Lemma find_number_exists (l : list Surah) (s : Z) (x : Surah) :
  In x l -> number x = s -> exists f, find (fun y => number y =? s) l = Some f.
Proof.
  intros Hin Hx. destruct (find (fun y => number y =? s) l) as [f|] eqn:E.
  - exists f. reflexivity.
  - exfalso. pose proof (find_none _ _ E x Hin) as Hn. cbv beta in Hn.
    apply Z.eqb_neq in Hn. contradiction.
Qed.

(** The position a request made by a handler of render [st] leaves
    behind, whatever the provider answers. *)
Lemma settle_wellPositioned (st st0 : AppState) (c : Surah) (s a : Z) (r : Response) :
  (forall x, In x (surahs st) -> 1 <= numberOfAyahs x) ->
  currentSurah st = Some c -> currentSurah st0 = Some c ->
  1 <= currentAyahNum st0 <= numberOfAyahs c ->
  (s = number c /\ 1 <= a <= numberOfAyahs c) \/ (s <> number c /\ a = 1) ->
  wellPositioned (settle (mkPending s a (surahs st) (currentSurah st)) r st0).
Proof.
  intros Hl Hc Hc0 Hv Hsa.
  pose proof (settle_fields (mkPending s a (surahs st) (currentSurah st)) r st0) as H.
  cbv zeta in H. destruct H as [_ [_ [_ [_ [_ H]]]]].
  cbn [p_ayahNum p_surahNum p_surahs p_currentSurah] in H.
  unfold wellPositioned.
  destruct r as [data|].
  - destruct H as [Hn [_ [_ Hs]]]. rewrite Hn, Hs, Hc. cbn [needsSurahLookup].
    destruct Hsa as [[-> Ha] | [Hne ->]].
    + rewrite Z.eqb_refl. cbn [negb]. exists c. split; [exact Hc0 | exact Ha].
    + replace (number c =? s) with false by (symmetry; apply Z.eqb_neq; congruence).
      cbn [negb]. destruct (find _ (surahs st)) as [f|] eqn:E.
      * exists f. split; [reflexivity|]. apply find_number in E.
        specialize (Hl f (proj1 E)). lia.
      * exists c. split; [exact Hc0 | lia].
  - destruct H as [Hs [Hn _]]. rewrite Hs, Hn. exists c. split; assumption.
Qed.

(** X1.  The next-verse, previous-verse and jump handlers keep the verse
    index within the current chapter: from a state where it is, with
    every loaded chapter of at least one verse, it still is once the
    request is settled, whether the provider resolves or rejects. *)
Theorem navigation_keeps_position (getAyah : Provider) (st : AppState) (value : JsString.t) :
  (forall x, In x (surahs st) -> 1 <= numberOfAyahs x) ->
  wellPositioned st ->
  wellPositioned (fst (run getAyah (handleNextAyah st)))
  /\ wellPositioned (fst (run getAyah (handlePrevAyah st)))
  /\ wellPositioned (fst (run getAyah (handleJumpToAyah value st))).
Proof.
  intros Hl Hw. pose proof Hw as [c [Hc Hv]].
  split; [|split].
  - unfold handleNextAyah. rewrite Hc.
    destruct (Z.ltb_spec (currentAyahNum st) (numberOfAyahs c)).
    + apply settle_wellPositioned with (c := c); auto. left. lia.
    + destruct (Z.ltb_spec (number c) 114); [|exact Hw].
      apply settle_wellPositioned with (c := c); auto. right. lia.
  - unfold handlePrevAyah. rewrite Hc, !Z.gtb_ltb.
    destruct (Z.ltb_spec 1 (currentAyahNum st)).
    + apply settle_wellPositioned with (c := c); auto. left. lia.
    + destruct (Z.ltb_spec 1 (number c)); [|exact Hw].
      apply settle_wellPositioned with (c := c); auto. right. lia.
  - unfold handleJumpToAyah. rewrite Hc.
    destruct (JsString.parseInt value) as [num|]; [|exact Hw].
    rewrite Z.gtb_ltb.
    destruct (Z.ltb_spec 0 num); [|exact Hw].
    destruct (Z.leb_spec num (numberOfAyahs c)); [|exact Hw].
    apply settle_wellPositioned with (c := c); auto. left. lia.
Qed.

Lemma sample_chapters_nonempty :
  forall x, In x Sample.chapters -> 1 <= numberOfAyahs x.
Proof.
  intros x Hx. simpl in Hx.
  repeat (destruct Hx as [<- | Hx]; [simpl; lia|]). destruct Hx.
Qed.

Lemma navigation_keeps_position_witness :
  let st := Sample.reading Sample.alFaatiha 7 in
  wellPositioned (fst (run Sample.getAyah (handleNextAyah st)))
  /\ wellPositioned (fst (run Sample.getAyah (handlePrevAyah st)))
  /\ wellPositioned (fst (run Sample.getAyah (handleJumpToAyah (JsString.lit "4") st))).
Proof.
  intros st.
  apply (navigation_keeps_position Sample.getAyah st (JsString.lit "4")).
  - exact sample_chapters_nonempty.
  - exists Sample.alFaatiha. split; [reflexivity | simpl; lia].
Defined.

(** ** Choosing a chapter or a search result *)

Lemma run_selectSurahFromList (getAyah : Provider) (ch : Surah) (st : AppState) :
  run getAyah (selectSurahFromList ch st) =
  (settle (mkPending (number ch) 1 (surahs st) (currentSurah st))
          (getAyah (number ch) 1)
          (setIsSidebarOpen false
             (setError None (setIsLoadingAyah true
                (setCurrentSurah (Some ch) (setViewMode reader st))))),
   [(number ch, 1)]).
Proof. reflexivity. Qed.

Lemma run_selectSearchResult (getAyah : Provider) (s a : Z) (st : AppState) :
  run getAyah (selectSearchResult s a st) =
  (settle (mkPending s a (surahs st) (currentSurah st)) (getAyah s a)
          (setIsSidebarOpen false
             (setError None (setIsLoadingAyah true (setViewMode reader st)))),
   [(s, a)]).
Proof. reflexivity. Qed.

(** X2.  When the provider rejects the first verse of a chapter chosen
    from the list, the chosen chapter is the current chapter all the same,
    while the verse index and the verse on display are still the old ones;
    the view is the reader, the sidebar is closed, the load message is in
    the error cell and the loading flag is false. *)
Theorem selectSurahFromList_rejected (getAyah : Provider) (ch : Surah) (st : AppState) :
  getAyah (number ch) 1 = Rejected ->
  let st' := fst (run getAyah (selectSurahFromList ch st)) in
  currentSurah st' = Some ch
  /\ currentAyahNum st' = currentAyahNum st
  /\ ayahData st' = ayahData st
  /\ viewMode st' = reader
  /\ isSidebarOpen st' = false
  /\ error st' = Some loadErrorMessage
  /\ isLoadingAyah st' = false.
Proof.
  intros Hrej st'. subst st'. rewrite run_selectSurahFromList, Hrej.
  repeat split.
Qed.

Lemma selectSurahFromList_rejected_witness :
  let st := Sample.reading Sample.alBaqara 200 in
  let st' := fst (run (fun _ _ => Rejected) (selectSurahFromList Sample.alFaatiha st)) in
  currentSurah st' = Some Sample.alFaatiha
  /\ currentAyahNum st' = 200
  /\ ayahData st' = Some (Sample.verse 2 200)
  /\ ~ wellPositioned st'.
Proof.
  intros st st'.
  pose proof (selectSurahFromList_rejected (fun _ _ => Rejected) Sample.alFaatiha st eq_refl) as H.
  cbv zeta in H. fold st' in H. destruct H as [H1 [H2 [H3 _]]].
  split; [exact H1|]. split; [exact H2|]. split; [exact H3|].
  intros [c [Hc Hv]]. rewrite H1 in Hc. injection Hc as <-.
  rewrite H2 in Hv. simpl in Hv. lia.
Defined.

(** X3.  When the provider resolves the first verse of a chapter chosen
    from the list, the current chapter has the number of the chosen
    chapter, the verse index is 1, the resolved verse is on display, the
    view is the reader, the sidebar is closed and the error cell is
    empty. *)
Theorem selectSurahFromList_resolved (getAyah : Provider) (ch : Surah) (st : AppState)
    (data : AyahDisplayData) :
  getAyah (number ch) 1 = Resolved data ->
  let st' := fst (run getAyah (selectSurahFromList ch st)) in
  (exists c, currentSurah st' = Some c /\ number c = number ch)
  /\ currentAyahNum st' = 1
  /\ ayahData st' = Some data
  /\ viewMode st' = reader
  /\ isSidebarOpen st' = false
  /\ error st' = None
  /\ isLoadingAyah st' = false.
Proof.
  intros Hres st'. subst st'. rewrite run_selectSurahFromList, Hres.
  cbn [fst].
  match goal with |- context [settle ?p ?r ?s0] =>
    pose proof (settle_fields p r s0) as H end.
  cbv zeta in H. destruct H as [Hl [Hm [Hs [_ [_ [Hn [Hd [He Hc]]]]]]]].
  cbn [p_ayahNum p_surahNum p_surahs p_currentSurah] in Hn, Hc.
  split; [|repeat split; assumption].
  rewrite Hc.
  destruct (needsSurahLookup (currentSurah st) (number ch)).
  - destruct (find _ (surahs st)) as [f|] eqn:E.
    + exists f. split; [reflexivity|]. apply find_number in E. apply E.
    + exists ch. split; reflexivity.
  - exists ch. split; reflexivity.
Qed.

Lemma selectSurahFromList_resolved_witness :
  let st := Sample.reading Sample.alBaqara 200 in
  let st' := fst (run Sample.getAyah (selectSurahFromList Sample.yusuf st)) in
  (exists c, currentSurah st' = Some c /\ number c = 12)
  /\ currentAyahNum st' = 1
  /\ ayahData st' = Some (Sample.verse 12 1).
Proof.
  intros st st'.
  pose proof (selectSurahFromList_resolved Sample.getAyah Sample.yusuf st
                (Sample.verse 12 1) eq_refl) as H.
  cbv zeta in H. fold st' in H. destruct H as [H1 [H2 [H3 _]]].
  split; [exact H1|]. split; [exact H2 | exact H3].
Defined.

(** X4.  Selecting a search result asks the provider once, for exactly
    the coordinate of the result, and ends in the reader view with the
    sidebar closed and the loading flag false, whatever the view was and
    whatever the provider answers.  When the provider resolves and a
    chapter of that number is loaded, the current chapter has that number,
    the verse index is that of the result and the resolved verse is on
    display. *)
Theorem selectSearchResult_outcome (getAyah : Provider) (s a : Z) (st : AppState) :
  let r := run getAyah (selectSearchResult s a st) in
  snd r = [(s, a)]
  /\ viewMode (fst r) = reader
  /\ isSidebarOpen (fst r) = false
  /\ isLoadingAyah (fst r) = false
  /\ (forall data x,
        getAyah s a = Resolved data -> In x (surahs st) -> number x = s ->
        (exists c, currentSurah (fst r) = Some c /\ number c = s)
        /\ currentAyahNum (fst r) = a
        /\ ayahData (fst r) = Some data).
Proof.
  intros r. subst r. rewrite run_selectSearchResult. cbn [fst snd].
  match goal with |- context [settle ?p ?r ?s0] =>
    pose proof (settle_fields p r s0) as H end.
  cbv zeta in H. destruct H as [Hl [Hm [Hs [_ [_ H]]]]].
  split; [reflexivity|]. split; [exact Hm|]. split; [exact Hs|].
  split; [exact Hl|].
  intros data x Hres Hin Hx. rewrite Hres in *.
  destruct H as [Hn [Hd [_ Hc]]].
  cbn [p_ayahNum p_surahNum p_surahs p_currentSurah] in Hn, Hc.
  split; [|split; assumption].
  rewrite Hc.
  cbn [currentSurah setIsSidebarOpen setError setIsLoadingAyah setViewMode].
  destruct (currentSurah st) as [c|] eqn:Ec; cbn [needsSurahLookup].
  - destruct (Z.eqb_spec (number c) s); cbn [negb].
    + exists c. split; [reflexivity | assumption].
    + destruct (find_number_exists _ _ _ Hin Hx) as [f Hf]. rewrite Hf.
      exists f. split; [reflexivity|]. apply find_number in Hf. apply Hf.
  - destruct (find_number_exists _ _ _ Hin Hx) as [f Hf]. rewrite Hf.
    exists f. split; [reflexivity|]. apply find_number in Hf. apply Hf.
Qed.

Lemma selectSearchResult_outcome_witness :
  let r := run Sample.getAyah (selectSearchResult 9 5 Sample.initial) in
  snd r = [(9, 5)]
  /\ viewMode (fst r) = reader
  /\ (exists c, currentSurah (fst r) = Some c /\ number c = 9)
  /\ currentAyahNum (fst r) = 5
  /\ ayahData (fst r) = Some (Sample.verse 9 5).
Proof.
  intros r.
  pose proof (selectSearchResult_outcome Sample.getAyah 9 5 Sample.initial) as H.
  cbv zeta in H. fold r in H. destruct H as [H1 [H2 [_ [_ H5]]]].
  split; [exact H1|]. split; [exact H2|].
  apply (H5 (Sample.verse 9 5) Sample.atTawba).
  - reflexivity.
  - simpl. tauto.
  - reflexivity.
Defined.

(** X5.  When a search result names a chapter that is not in the loaded
    list and is not the current one, and the provider resolves it, the
    verse index and the verse on display are those of the result while the
    current chapter stays the one it was. *)
Theorem selectSearchResult_unknown_chapter (getAyah : Provider) (s a : Z) (st : AppState)
    (data : AyahDisplayData) :
  getAyah s a = Resolved data ->
  (forall x, In x (surahs st) -> number x <> s) ->
  (forall c, currentSurah st = Some c -> number c <> s) ->
  let st' := fst (run getAyah (selectSearchResult s a st)) in
  currentSurah st' = currentSurah st
  /\ currentAyahNum st' = a
  /\ ayahData st' = Some data.
Proof.
  intros Hres Hl Hcur st'. subst st'. rewrite run_selectSearchResult, Hres.
  cbn [fst].
  match goal with |- context [settle ?p ?r ?s0] =>
    pose proof (settle_fields p r s0) as H end.
  cbv zeta in H. destruct H as [_ [_ [_ [_ [_ [Hn [Hd [_ Hc]]]]]]]].
  cbn [p_ayahNum p_surahNum p_surahs p_currentSurah] in Hn, Hc.
  split; [|split; assumption].
  rewrite Hc.
  destruct (find (fun x => number x =? s) (surahs st)) as [f|] eqn:E.
  - apply find_number in E. destruct E as [Hin Hf]. elim (Hl f Hin Hf).
  - destruct (needsSurahLookup (currentSurah st) s); reflexivity.
Qed.

Lemma selectSearchResult_unknown_chapter_witness :
  let st := Sample.reading Sample.alFaatiha 3 in
  let getAyah := fun s a => Resolved (Sample.verse s a) in
  let st' := fst (run getAyah (selectSearchResult 36 58 st)) in
  currentSurah st' = Some Sample.alFaatiha
  /\ currentAyahNum st' = 58
  /\ ayahData st' = Some (Sample.verse 36 58)
  /\ ~ wellPositioned st'.
Proof.
  intros st getAyah st'.
  assert (Hl : forall x, In x (surahs st) -> number x <> 36).
  { intros x Hx. simpl in Hx.
    repeat (destruct Hx as [<- | Hx]; [simpl; lia|]). destruct Hx. }
  assert (Hc : forall c, currentSurah st = Some c -> number c <> 36).
  { intros c [= <-]. simpl. lia. }
  pose proof (selectSearchResult_unknown_chapter getAyah 36 58 st
                (Sample.verse 36 58) eq_refl Hl Hc) as H.
  cbv zeta in H. fold st' in H. destruct H as [H1 [H2 H3]].
  split; [exact H1|]. split; [exact H2|]. split; [exact H3|].
  intros [c [Hcur Hv]]. rewrite H1 in Hcur. injection Hcur as <-.
  rewrite H2 in Hv. simpl in Hv. lia.
Defined.

(** ** Going forward and back *)

Lemma run_loadAyah (getAyah : Provider) (st : AppState) (s a : Z) :
  fst (run getAyah (loadAyah st s a st)) =
  settle (mkPending s a (surahs st) (currentSurah st)) (getAyah s a)
         (setError None (setIsLoadingAyah true st)).
Proof. reflexivity. Qed.

(** State after a resolved request that stays in the current chapter. *)
Lemma run_loadAyah_same_chapter (getAyah : Provider) (st : AppState) (c : Surah)
    (a : Z) (data : AyahDisplayData) :
  currentSurah st = Some c ->
  getAyah (number c) a = Resolved data ->
  let st' := fst (run getAyah (loadAyah st (number c) a st)) in
  currentSurah st' = Some c /\ currentAyahNum st' = a /\ ayahData st' = Some data.
Proof.
  intros Hc Hres st'. subst st'. rewrite run_loadAyah, Hres.
  match goal with |- context [settle ?p ?r ?s0] =>
    pose proof (settle_fields p r s0) as H end.
  cbv zeta in H. destruct H as [_ [_ [_ [_ [_ [Hn [Hd [_ Hs]]]]]]]].
  cbn [p_ayahNum p_surahNum p_surahs p_currentSurah] in Hn, Hs.
  split; [|split; assumption].
  rewrite Hs. cbn [currentSurah setError setIsLoadingAyah]. rewrite Hc.
  cbn [needsSurahLookup]. rewrite Z.eqb_refl. reflexivity.
Qed.

(** State after a resolved request for verse 1 of another chapter that
    the list holds. *)
Lemma run_loadAyah_other_chapter (getAyah : Provider) (st : AppState) (c d : Surah)
    (s : Z) (data : AyahDisplayData) :
  currentSurah st = Some c -> number c <> s ->
  find (fun x => number x =? s) (surahs st) = Some d ->
  getAyah s 1 = Resolved data ->
  let st' := fst (run getAyah (loadAyah st s 1 st)) in
  currentSurah st' = Some d /\ currentAyahNum st' = 1 /\ ayahData st' = Some data
  /\ surahs st' = surahs st.
Proof.
  intros Hc Hne Hf Hres st'. subst st'. rewrite run_loadAyah, Hres.
  match goal with |- context [settle ?p ?r ?s0] =>
    pose proof (settle_fields p r s0) as H end.
  cbv zeta in H. destruct H as [_ [_ [_ [Hl [_ [Hn [Hd [_ Hs]]]]]]]].
  cbn [p_ayahNum p_surahNum p_surahs p_currentSurah] in Hn, Hs.
  split; [|split; [assumption | split; assumption]].
  rewrite Hs, Hc, (needsSurahLookup_other c s Hne), Hf. reflexivity.
Qed.

(** X6.  Inside a chapter, next followed by previous comes back: from
    verse [v] of chapter [c] with [1 <= v < numberOfAyahs c], when the
    provider resolves both requests, the position is again verse [v] of
    [c] and the verse on display is the one the provider gives for
    [(number c, v)]. *)
Theorem next_then_prev (getAyah : Provider) (st : AppState) (c : Surah)
    (d1 d0 : AyahDisplayData) :
  currentSurah st = Some c ->
  1 <= currentAyahNum st < numberOfAyahs c ->
  getAyah (number c) (currentAyahNum st + 1) = Resolved d1 ->
  getAyah (number c) (currentAyahNum st) = Resolved d0 ->
  let st1 := fst (run getAyah (handleNextAyah st)) in
  let st2 := fst (run getAyah (handlePrevAyah st1)) in
  currentSurah st2 = Some c
  /\ currentAyahNum st2 = currentAyahNum st
  /\ ayahData st2 = Some d0.
Proof.
  intros Hc Hv H1 H0 st1 st2.
  assert (E1 : currentSurah st1 = Some c /\ currentAyahNum st1 = currentAyahNum st + 1).
  { subst st1. unfold handleNextAyah. rewrite Hc.
    replace (currentAyahNum st <? numberOfAyahs c) with true
      by (symmetry; apply Z.ltb_lt; lia).
    pose proof (run_loadAyah_same_chapter getAyah st c _ d1 Hc H1) as H.
    cbv zeta in H. tauto. }
  destruct E1 as [Hc1 Hn1].
  subst st2. unfold handlePrevAyah. rewrite Hc1, Hn1, Z.gtb_ltb.
  replace (1 <? currentAyahNum st + 1) with true by (symmetry; apply Z.ltb_lt; lia).
  replace (currentAyahNum st + 1 - 1) with (currentAyahNum st) by lia.
  pose proof (run_loadAyah_same_chapter getAyah st1 c _ d0 Hc1 H0) as H.
  cbv zeta in H. exact H.
Qed.

Lemma next_then_prev_witness :
  let st := Sample.reading Sample.alBaqara 5 in
  let st1 := fst (run Sample.getAyah (handleNextAyah st)) in
  let st2 := fst (run Sample.getAyah (handlePrevAyah st1)) in
  currentSurah st2 = Some Sample.alBaqara
  /\ currentAyahNum st2 = 5
  /\ ayahData st2 = Some (Sample.verse 2 5).
Proof.
  intros st.
  apply (next_then_prev Sample.getAyah st Sample.alBaqara
           (Sample.verse 2 6) (Sample.verse 2 5)).
  - reflexivity.
  - simpl. lia.
  - reflexivity.
  - reflexivity.
Defined.

(** X7.  Across a chapter end, next followed by previous does not come
    back to the verse left: from the last verse of chapter [c] (numbered 1
    to 113), with chapters [number c] and [number c + 1] in the list and
    both requests resolved, the position is verse 1 of the list's chapter
    numbered [number c]. *)
Theorem next_then_prev_across (getAyah : Provider) (st : AppState) (c c' d : Surah)
    (d1 d0 : AyahDisplayData) :
  currentSurah st = Some c ->
  currentAyahNum st = numberOfAyahs c ->
  1 <= number c < 114 ->
  find (fun x => number x =? number c + 1) (surahs st) = Some d ->
  find (fun x => number x =? number c) (surahs st) = Some c' ->
  getAyah (number c + 1) 1 = Resolved d1 ->
  getAyah (number c) 1 = Resolved d0 ->
  let st1 := fst (run getAyah (handleNextAyah st)) in
  let st2 := fst (run getAyah (handlePrevAyah st1)) in
  (currentSurah st1 = Some d /\ currentAyahNum st1 = 1)
  /\ currentSurah st2 = Some c'
  /\ currentAyahNum st2 = 1
  /\ ayahData st2 = Some d0.
Proof.
  intros Hc Hv Hid Hfd Hfc H1 H0 st1 st2.
  pose proof (find_number _ _ _ Hfd) as [_ Hd].
  assert (E1 : currentSurah st1 = Some d /\ currentAyahNum st1 = 1
               /\ surahs st1 = surahs st).
  { subst st1. unfold handleNextAyah. rewrite Hc, Hv, Z.ltb_irrefl.
    replace (number c <? 114) with true by (symmetry; apply Z.ltb_lt; lia).
    pose proof (run_loadAyah_other_chapter getAyah st c d (number c + 1) d1 Hc
                  ltac:(lia) Hfd H1) as H.
    cbv zeta in H. tauto. }
  destruct E1 as [Hc1 [Hn1 Hl1]].
  split; [split; assumption|].
  subst st2. unfold handlePrevAyah. rewrite Hc1, Hn1, !Z.gtb_ltb, Z.ltb_irrefl.
  replace (1 <? number d) with true by (symmetry; apply Z.ltb_lt; lia).
  replace (number d - 1) with (number c) by lia.
  rewrite <- Hl1 in Hfc.
  pose proof (run_loadAyah_other_chapter getAyah st1 d c' (number c) d0 Hc1
                ltac:(lia) Hfc H0) as H.
  cbv zeta in H. tauto.
Qed.

Lemma next_then_prev_across_witness :
  let st := Sample.reading Sample.alFaatiha 7 in
  let st1 := fst (run Sample.getAyah (handleNextAyah st)) in
  let st2 := fst (run Sample.getAyah (handlePrevAyah st1)) in
  (currentSurah st1 = Some Sample.alBaqara /\ currentAyahNum st1 = 1)
  /\ currentSurah st2 = Some Sample.alFaatiha
  /\ currentAyahNum st2 = 1
  /\ ayahData st2 = Some (Sample.verse 1 1).
Proof.
  intros st.
  apply (next_then_prev_across Sample.getAyah st Sample.alFaatiha Sample.alFaatiha
           Sample.alBaqara (Sample.verse 2 1) (Sample.verse 1 1)).
  - reflexivity.
  - reflexivity.
  - simpl. lia.
  - reflexivity.
  - reflexivity.
  - reflexivity.
  - reflexivity.
Defined.

(** ** Recorded gestures *)

Lemma recordGesture_snoc (startPoint e : Touch) (moves : list Touch) (refs : TouchRefs) :
  recordGesture startPoint (moves ++ [e]) refs =
  onTouchMove e (recordGesture startPoint moves refs).
Proof. unfold recordGesture. rewrite fold_left_app. reflexivity. Qed.

Lemma recordGesture_start (startPoint : Touch) (moves : list Touch) (refs : TouchRefs) :
  touchStartX (recordGesture startPoint moves refs) = Some (clientX startPoint)
  /\ touchStartY (recordGesture startPoint moves refs) = Some (clientY startPoint).
Proof.
  induction moves as [|e moves IH] using rev_ind.
  - split; reflexivity.
  - rewrite recordGesture_snoc. exact IH.
Qed.

(** X8.  Only the start point and the last reported point of a touch
    count: lifting the finger after any sequence of moves acts as the
    gesture from the start point to the last of them, whatever the cells
    held before, and a touch with no move at all does nothing. *)
Theorem gesture_path_irrelevant (startPoint : Touch) (moves : list Touch)
    (refs refs' : TouchRefs) (st : AppState) :
  onTouchEnd (recordGesture startPoint moves refs) st =
  match rev moves with
  | [] => (st, [])
  | endPoint :: _ => interpretGesture startPoint endPoint refs' st
  end.
Proof.
  destruct moves as [|e moves] using rev_ind.
  - unfold onTouchEnd, recordGesture. simpl. rewrite orb_true_r. reflexivity.
  - rewrite rev_app_distr. cbn [rev app]. rewrite recordGesture_snoc.
    destruct (recordGesture_start startPoint moves refs) as [Hx Hy].
    unfold interpretGesture, onTouchEnd, onTouchMove.
    cbn [touchStartX touchStartY touchEndX touchEndY onTouchStart].
    rewrite Hx, Hy. reflexivity.
Qed.

(** ** Narrowing the filter *)

Lemma containsText_narrow (hay a q b : JsString.t) :
  containsText hay (a ++ q ++ b) -> containsText hay q.
Proof.
  intros [pre [post H]]. exists (pre ++ a), (b ++ post).
  rewrite H, <- !List.app_assoc. reflexivity.
Qed.

Lemma includes_narrow (hay a q b : JsString.t) :
  JsString.includes hay (a ++ q ++ b) = true -> JsString.includes hay q = true.
Proof. rewrite !includes_iff. apply containsText_narrow. Qed.

Lemma surahMatches_narrow (a q b : JsString.t) (s : Surah) :
  surahMatches (a ++ q ++ b) s = true -> surahMatches q s = true.
Proof.
  unfold surahMatches, JsString.toLowerCase. rewrite !map_app, !orb_true_iff.
  intros [[[H | H] | H] | H]; apply includes_narrow in H; tauto.
Qed.

Lemma filter_filter_implied {A : Type} (f g : A -> bool) (l : list A) :
  (forall x, f x = true -> g x = true) -> filter f (filter g l) = filter f l.
Proof.
  intros Hfg. induction l as [|x l IH]; [reflexivity|]. simpl.
  destruct (g x) eqn:Eg; simpl.
  - rewrite IH. reflexivity.
  - destruct (f x) eqn:Ef; [|exact IH].
    apply Hfg in Ef. congruence.
Qed.


(** ** Reading the jump input *)

Lemma trimStart_whitespace (ws s : JsString.t) :
  forallb JsString.isWhiteSpace ws = true ->
  JsString.trimStart (ws ++ s) = JsString.trimStart s.
Proof.
  induction ws as [|c ws IH]; [reflexivity|].
  cbn [forallb app JsString.trimStart]. rewrite andb_true_iff.
  intros [Hc Hws]. rewrite Hc. apply IH, Hws.
Qed.

Lemma parseInt_whitespace (ws s : JsString.t) :
  forallb JsString.isWhiteSpace ws = true ->
  JsString.parseInt (ws ++ s) = JsString.parseInt s.
Proof.
  intros H. unfold JsString.parseInt. rewrite (trimStart_whitespace ws s H).
  reflexivity.
Qed.



Lemma to_uint_no_leading_zero (p : positive) (d : Decimal.uint) :
  Pos.to_uint p <> Decimal.D0 d.
Proof.
  intros E. pose proof (Unsigned.to_of (Pos.to_uint p)) as H.
  rewrite Unsigned.of_to in H. cbn [N.to_uint] in H.
  unfold Decimal.unorm in H.
  destruct (Decimal.nzhead (Pos.to_uint p)) eqn:En;
    try (rewrite E in H; discriminate).
  - exact (Unsigned.to_uint_nonzero p H).
  - exact (nzhead_nonzero _ _ En).
Qed.

Lemma digitValue_not_decimal (c : ascii) (d : Z) :
  isDecimalDigit c = false -> JsString.digitValue c = Some d -> 10 <= d.
Proof.
  unfold isDecimalDigit, JsString.digitValue. intros ->.
  destruct (Nat.leb 97 (nat_of_ascii c) && Nat.leb (nat_of_ascii c) 122)%bool eqn:E1.
  - apply andb_true_iff in E1. destruct E1 as [E1 _]. apply Nat.leb_le in E1.
    intros [= <-]. lia.
  - destruct (Nat.leb 65 (nat_of_ascii c) && Nat.leb (nat_of_ascii c) 90)%bool eqn:E2;
      [|discriminate].
    apply andb_true_iff in E2. destruct E2 as [E2 _]. apply Nat.leb_le in E2.
    intros [= <-]. lia.
Qed.

Lemma parseDigits_stops (m : Z) (rest : JsString.t) :
  startsWithDigit rest = false ->
  JsString.parseDigits 10 (Some m) rest = Some m.
Proof.
  destruct rest as [|c rest]; [reflexivity|]. cbn [startsWithDigit JsString.parseDigits].
  intros Hc. destruct (JsString.digitValue c) as [d|] eqn:E; [|reflexivity].
  pose proof (digitValue_not_decimal c d Hc E) as Hd.
  replace (d <? 10) with false by (symmetry; apply Z.ltb_ge; exact Hd).
  reflexivity.
Qed.

Lemma digitsOf_app (d : Decimal.uint) (a : Z) (rest : JsString.t) :
  JsString.parseDigits 10 (Some a) (digitsOf d ++ rest) =
  JsString.parseDigits 10 (Some (uintValue d a)) rest.
Proof.
  revert a; induction d; intros a; try reflexivity; exact (IHd _).
Qed.

Lemma digitsOf_app_start (d : Decimal.uint) (rest : JsString.t) :
  d <> Decimal.Nil ->
  JsString.parseDigits 10 None (digitsOf d ++ rest) =
  JsString.parseDigits 10 (Some (uintValue d 0)) rest.
Proof.
  destruct d; intros Hd; try congruence; exact (digitsOf_app d _ rest).
Qed.

Lemma digitsOf_app_plain (d : Decimal.uint) (rest : JsString.t) :
  d <> Decimal.Nil -> (forall d', d <> Decimal.D0 d') ->
  JsString.trimStart (digitsOf d ++ rest) = digitsOf d ++ rest
  /\ JsString.stripSign (digitsOf d ++ rest) = (1, digitsOf d ++ rest)
  /\ JsString.stripHexPrefix (digitsOf d ++ rest) = (10, digitsOf d ++ rest).
Proof.
  destruct d; intros Hnil Hz; try congruence;
    try (split; [reflexivity | split; reflexivity]).
Qed.

Lemma parseInt_leading_integer (p : positive) (rest : JsString.t) :
  startsWithDigit rest = false ->
  JsString.parseInt (JsString.numberToString (Z.pos p) ++ rest) = Some (Z.pos p).
Proof.
  intros Hrest.
  pose proof (Unsigned.to_uint_nonnil p) as Hnil.
  pose proof (to_uint_no_leading_zero p) as Hz.
  assert (E : JsString.numberToString (Z.pos p) = digitsOf (Pos.to_uint p)).
  { unfold JsString.numberToString, Z.to_int, NilZero.string_of_int,
      NilZero.string_of_uint.
    destruct (Pos.to_uint p); try congruence; reflexivity. }
  rewrite E.
  destruct (digitsOf_app_plain _ rest Hnil Hz) as [Ht [Hs Hx]].
  unfold JsString.parseInt. rewrite Ht, Hs, Hx.
  rewrite (digitsOf_app_start _ rest Hnil), (parseDigits_stops _ rest Hrest).
  rewrite uintValue_zero, Unsigned.of_to. reflexivity.
Qed.

(** X11.  The jump handler reads the leading integer of its input and
    ignores what follows: on the decimal text of a positive integer [n]
    followed by any text that does not begin with a decimal digit, it
    acts as on the text of [n] alone. *)
Theorem jump_ignores_trailing_text (st : AppState) (n : Z) (rest : JsString.t) :
  0 < n -> startsWithDigit rest = false ->
  JsString.parseInt (JsString.numberToString n ++ rest) = Some n
  /\ handleJumpToAyah (JsString.numberToString n ++ rest) st =
     handleJumpToAyah (JsString.numberToString n) st.
Proof.
  intros Hn Hrest. destruct n as [|p|p]; try lia.
  pose proof (parseInt_leading_integer p rest Hrest) as E.
  split; [exact E|].
  unfold handleJumpToAyah. rewrite E, parseInt_numberToString. reflexivity.
Qed.

Lemma jump_ignores_trailing_text_witness :
  let st := Sample.reading Sample.alBaqara 1 in
  JsString.numberToString 12 ++ JsString.lit "th verse" = JsString.lit "12th verse"
  /\ targets (handleJumpToAyah (JsString.lit "12th verse") st) = [(2, 12)]
  /\ handleJumpToAyah (JsString.numberToString 12 ++ JsString.lit "th verse") st =
     handleJumpToAyah (JsString.numberToString 12) st.
Proof.
  intros st. split; [reflexivity|]. split; [reflexivity|].
  apply (jump_ignores_trailing_text st 12 (JsString.lit "th verse")).
  - lia.
  - reflexivity.
Defined.

(** ** Search *)

Lemma trimStart_nil_iff (s : JsString.t) :
  JsString.trimStart s = [] <-> forallb JsString.isWhiteSpace s = true.
Proof.
  induction s as [|c s IH]; [split; reflexivity|].
  cbn [JsString.trimStart forallb].
  destruct (JsString.isWhiteSpace c); cbn [andb]; [exact IH|].
  split; discriminate.
Qed.

Lemma trimStart_all_whitespace (s : JsString.t) :
  forallb JsString.isWhiteSpace (JsString.trimStart s) = true
  <-> forallb JsString.isWhiteSpace s = true.
Proof.
  induction s as [|c s IH]; [split; reflexivity|].
  cbn [JsString.trimStart]. destruct (JsString.isWhiteSpace c) eqn:E.
  - cbn [forallb]. rewrite E. exact IH.
  - reflexivity.
Qed.

Lemma forallb_rev {A : Type} (f : A -> bool) (l : list A) :
  forallb f (rev l) = true <-> forallb f l = true.
Proof.
  rewrite !forallb_forall. split; intros H x Hx; apply H.
  - apply in_rev in Hx. exact Hx.
  - apply in_rev. exact Hx.
Qed.

Lemma trim_nil_iff (s : JsString.t) :
  trim s = [] <-> forallb JsString.isWhiteSpace s = true.
Proof.
  unfold trim.
  rewrite <- trimStart_all_whitespace, <- forallb_rev, <- trimStart_nil_iff.
  split.
  - intros H. apply (f_equal (@rev ascii)) in H. rewrite rev_involutive in H.
    exact H.
  - intros ->. reflexivity.
Qed.

Section AssistantProperties.

Context {TafsirData SurahOverviewData : Type}.

Let State : Type := Assistant.State TafsirData SurahOverviewData.


Lemma handleSearch_started
    (service : JsString.t -> Assistant.Language -> Outcome (list Assistant.SearchResult))
    (st : State) :
  forallb JsString.isWhiteSpace (Assistant.searchQuery st) = false ->
  exists c r, trim (Assistant.searchQuery st) = c :: r.
Proof.
  intros H. destruct (trim (Assistant.searchQuery st)) as [|c r] eqn:E.
  - apply trim_nil_iff in E. congruence.
  - exists c, r. reflexivity.
Qed.



(** X15.  Asking for the commentary does nothing while no verse is on
    display.  With a verse on display the service is called once, for
    that verse in the current language; if it fails, the modal is closed
    again with no commentary in it and the error cell holds the commentary
    message; if it succeeds, the modal is open with the commentary and the
    error cell is as it was before.  The loading flag ends false either
    way. *)
Theorem viewTafsir_outcome
    (service : AyahDisplayData -> Assistant.Language -> Outcome TafsirData)
    (st : State) :
  (ayahData (Assistant.core st) = None ->
     Assistant.handleViewTafsir service st = (st, []))
  /\ (forall ayah, ayahData (Assistant.core st) = Some ayah ->
       let st' := fst (Assistant.handleViewTafsir service st) in
       snd (Assistant.handleViewTafsir service st) =
         [Assistant.generateTafsir ayah (Assistant.language st)]
       /\ Assistant.isLoadingTafsir st' = false
       /\ (service ayah (Assistant.language st) = Failed ->
           Assistant.isTafsirOpen st' = false
           /\ Assistant.tafsirData st' = None
           /\ error (Assistant.core st') = Some Assistant.tafsirErrorMessage)
       /\ (forall tafsir,
             service ayah (Assistant.language st) = Fulfilled tafsir ->
             Assistant.isTafsirOpen st' = true
             /\ Assistant.tafsirData st' = Some tafsir
             /\ error (Assistant.core st') = error (Assistant.core st))).
Proof.
  unfold Assistant.handleViewTafsir. split.
  - intros ->. reflexivity.
  - intros ayah ->. cbv zeta. split; [reflexivity|].
    destruct (service ayah (Assistant.language st)) as [t|].
    + split; [reflexivity|]. split; [discriminate|].
      intros tafsir [= <-]. repeat split.
    + split; [reflexivity|]. split; [|discriminate].
      intros _. repeat split.
Qed.

(** X16.  Asking for the chapter overview does nothing while no chapter
    is current.  With a current chapter the service is called once, with
    the English name and the number of that chapter and the current
    language; if it fails, the modal is closed again with no overview in
    it and the error cell holds the overview message; if it succeeds, the
    modal is open with the overview and the error cell is as it was
    before.  The loading flag ends false either way. *)
Theorem surahOverview_outcome
    (service : JsString.t -> Z -> Assistant.Language -> Outcome SurahOverviewData)
    (st : State) :
  (currentSurah (Assistant.core st) = None ->
     Assistant.handleSurahOverview service st = (st, []))
  /\ (forall cur, currentSurah (Assistant.core st) = Some cur ->
       let st' := fst (Assistant.handleSurahOverview service st) in
       snd (Assistant.handleSurahOverview service st) =
         [Assistant.generateSurahOverview (englishName cur) (number cur)
            (Assistant.language st)]
       /\ Assistant.isLoadingOverview st' = false
       /\ (service (englishName cur) (number cur) (Assistant.language st) = Failed ->
           Assistant.isOverviewOpen st' = false
           /\ Assistant.overviewData st' = None
           /\ error (Assistant.core st') = Some Assistant.overviewErrorMessage)
       /\ (forall data,
             service (englishName cur) (number cur) (Assistant.language st)
             = Fulfilled data ->
             Assistant.isOverviewOpen st' = true
             /\ Assistant.overviewData st' = Some data
             /\ error (Assistant.core st') = error (Assistant.core st))).
Proof.
  unfold Assistant.handleSurahOverview. split.
  - intros ->. reflexivity.
  - intros cur ->. cbv zeta. split; [reflexivity|].
    destruct (service (englishName cur) (number cur) (Assistant.language st)) as [d|].
    + split; [reflexivity|]. split; [discriminate|].
      intros data [= <-]. repeat split.
    + split; [reflexivity|]. split; [|discriminate].
      intros _. repeat split.
Qed.

(** X17.  The commentary is always asked for the verse on display: after
    a search result is selected and the provider resolves it, for the
    resolved verse; after the provider rejects it, for the verse that was
    on display before, and for none (no call at all) if there was none. *)
Theorem tafsir_follows_display
    (getAyah : Provider)
    (service : AyahDisplayData -> Assistant.Language -> Outcome TafsirData)
    (s a : Z) (st : State) :
  let st1 := Assistant.navigate getAyah (selectSearchResult s a) st in
  (forall data, getAyah s a = Resolved data ->
     snd (Assistant.handleViewTafsir service st1) =
       [Assistant.generateTafsir data (Assistant.language st)])
  /\ (getAyah s a = Rejected ->
      snd (Assistant.handleViewTafsir service st1) =
        match ayahData (Assistant.core st) with
        | Some shown => [Assistant.generateTafsir shown (Assistant.language st)]
        | None => []
        end).
Proof.
  intros st1.
  assert (E : ayahData (Assistant.core st1) =
              match getAyah s a with
              | Resolved data => Some data
              | Rejected => ayahData (Assistant.core st)
              end).
  { subst st1. unfold Assistant.navigate. cbn [Assistant.core].
    rewrite run_selectSearchResult. cbn [fst].
    match goal with |- context [settle ?p ?r ?s0] =>
      pose proof (settle_fields p r s0) as H end.
    cbv zeta in H. destruct H as [_ [_ [_ [_ [_ H]]]]].
    destruct (getAyah s a); tauto. }
  unfold Assistant.handleViewTafsir. rewrite E.
  split.
  - intros data ->. reflexivity.
  - intros ->. destruct (ayahData (Assistant.core st)); reflexivity.
Qed.

End AssistantProperties.




Lemma viewTafsir_outcome_witness :
  let st := SampleAssistant.at_ Sample.alBaqara 153 Assistant.en [] in
  let failing := fun (_ : AyahDisplayData) (_ : Assistant.Language) => @Failed JsString.t in
  let st' := fst (Assistant.handleViewTafsir failing st) in
  snd (Assistant.handleViewTafsir failing st) =
    [Assistant.generateTafsir (Sample.verse 2 153) Assistant.en]
  /\ Assistant.isTafsirOpen st' = false
  /\ error (Assistant.core st') = Some Assistant.tafsirErrorMessage.
Proof.
  intros st failing st'.
  pose proof (proj2 (viewTafsir_outcome failing st) (Sample.verse 2 153) eq_refl) as H.
  cbv zeta in H. fold st' in H. destruct H as [H1 [_ [H3 _]]].
  split; [exact H1|]. destruct (H3 eq_refl) as [Ho [_ He]].
  split; [exact Ho | exact He].
Defined.

Lemma surahOverview_outcome_witness :
  let st := SampleAssistant.at_ Sample.yusuf 4 Assistant.bn [] in
  let service := fun (n : JsString.t) (_ : Z) (_ : Assistant.Language) => Fulfilled n in
  let st' := fst (Assistant.handleSurahOverview service st) in
  snd (Assistant.handleSurahOverview service st) =
    [Assistant.generateSurahOverview (JsString.lit "Yusuf") 12 Assistant.bn]
  /\ Assistant.isOverviewOpen st' = true
  /\ Assistant.overviewData st' = Some (JsString.lit "Yusuf").
Proof.
  intros st service st'.
  pose proof (proj2 (surahOverview_outcome service st) Sample.yusuf eq_refl) as H.
  cbv zeta in H. fold st' in H. destruct H as [H1 [_ [_ H4]]].
  split; [exact H1|]. destruct (H4 (JsString.lit "Yusuf") eq_refl) as [Ho [Hd _]].
  split; [exact Ho | exact Hd].
Defined.

Lemma tafsir_follows_display_witness :
  let st := SampleAssistant.at_ Sample.alBaqara 153 Assistant.en [] in
  let service := fun (_ : AyahDisplayData) (_ : Assistant.Language) => @Failed JsString.t in
  snd (Assistant.handleViewTafsir service
         (Assistant.navigate Sample.getAyah (selectSearchResult 9 999) st)) =
    [Assistant.generateTafsir (Sample.verse 2 153) Assistant.en]
  /\ snd (Assistant.handleViewTafsir service
            (Assistant.navigate Sample.getAyah (selectSearchResult 9 5) st)) =
    [Assistant.generateTafsir (Sample.verse 9 5) Assistant.en].
Proof.
  intros st service. split.
  - apply (proj2 (tafsir_follows_display Sample.getAyah service 9 999 st)).
    reflexivity.
  - apply (proj1 (tafsir_follows_display Sample.getAyah service 9 5 st)
             (Sample.verse 9 5)).
    reflexivity.
Defined.

(** ** Stored preferences *)

Lemma strEqb_eq (a b : JsString.t) : Preferences.strEqb a b = true <-> a = b.
Proof.
  revert b; induction a as [|x a IH]; intros [|y b]; simpl;
    try (split; [discriminate | discriminate]); [split; reflexivity|].
  rewrite andb_true_iff, Ascii.eqb_eq, IH. split.
  - intros [-> ->]. reflexivity.
  - intros [= -> ->]. split; reflexivity.
Qed.

Lemma getItem_setItem_same (key value : JsString.t) (st : Preferences.Storage) :
  Preferences.getItem key (Preferences.setItem key value st) = Some value.
Proof.
  unfold Preferences.getItem, Preferences.setItem. cbn [find fst].
  rewrite (proj2 (strEqb_eq key key) eq_refl). reflexivity.
Qed.

Lemma find_filter_other (key key' : JsString.t) (st : Preferences.Storage) :
  key <> key' ->
  find (fun kv => Preferences.strEqb (fst kv) key)
       (filter (fun kv => negb (Preferences.strEqb (fst kv) key')) st)
  = find (fun kv => Preferences.strEqb (fst kv) key) st.
Proof.
  intros Hne. induction st as [|kv st IH]; [reflexivity|]. cbn [filter find].
  destruct (Preferences.strEqb (fst kv) key') eqn:E'; cbn [negb].
  - apply strEqb_eq in E'.
    replace (Preferences.strEqb (fst kv) key) with false; [exact IH|].
    symmetry. destruct (Preferences.strEqb (fst kv) key) eqn:E; [|reflexivity].
    apply strEqb_eq in E. congruence.
  - cbn [find]. destruct (Preferences.strEqb (fst kv) key); [reflexivity | exact IH].
Qed.

Lemma getItem_setItem_other (key key' value : JsString.t) (st : Preferences.Storage) :
  key <> key' ->
  Preferences.getItem key (Preferences.setItem key' value st) = Preferences.getItem key st.
Proof.
  intros Hne. unfold Preferences.getItem, Preferences.setItem. cbn [find fst].
  replace (Preferences.strEqb key' key) with false.
  - rewrite (find_filter_other key key' st Hne). reflexivity.
  - symmetry. destruct (Preferences.strEqb key' key) eqn:E; [|reflexivity].
    apply strEqb_eq in E. congruence.
Qed.

Lemma hasKey_getItem (key : JsString.t) (st : Preferences.Storage) :
  Preferences.hasKey key st = false <-> Preferences.getItem key st = None.
Proof.
  unfold Preferences.hasKey, Preferences.getItem.
  induction st as [|kv st IH]; [split; reflexivity|]. cbn [existsb find].
  destruct (Preferences.strEqb (fst kv) key); cbn [orb].
  - split; discriminate.
  - exact IH.
Qed.

Lemma hasKey_setItem_other (key key' value : JsString.t) (st : Preferences.Storage) :
  key <> key' ->
  Preferences.hasKey key (Preferences.setItem key' value st) = Preferences.hasKey key st.
Proof.
  intros Hne.
  destruct (Preferences.hasKey key st) eqn:E.
  - destruct (Preferences.hasKey key (Preferences.setItem key' value st)) eqn:E';
      [reflexivity|].
    apply hasKey_getItem in E'. rewrite (getItem_setItem_other _ _ _ _ Hne) in E'.
    apply hasKey_getItem in E'. congruence.
  - apply hasKey_getItem. rewrite (getItem_setItem_other _ _ _ _ Hne).
    apply hasKey_getItem. exact E.
Qed.

Lemma numberToString_nonempty (n : Z) : JsString.numberToString n <> [].
Proof.
  intros E. pose proof (parseInt_numberToString n) as H. rewrite E in H.
  discriminate.
Qed.

Lemma parseInt_sizeToString (size : option Z) :
  JsString.parseInt (Preferences.orDefault (Some (Preferences.sizeToString size))
                       (JsString.lit "36")) = size
  /\ JsString.parseInt (Preferences.orDefault (Some (Preferences.sizeToString size))
                          (JsString.lit "18")) = size.
Proof.
  destruct size as [n|]; [|split; reflexivity].
  unfold Preferences.orDefault, Preferences.sizeToString.
  pose proof (numberToString_nonempty n) as Hne.
  destruct (JsString.numberToString n) eqn:E; [congruence|].
  rewrite <- E. split; apply parseInt_numberToString.
Qed.

(** X18.  The theme survives a reload: once the dark-mode effect has run
    for a mode, the initial mode computed from the storage is that mode,
    whatever the system preference says, and the root element carries the
    [dark] class exactly in dark mode.  The system preference decides only
    while no theme is stored. *)
Theorem theme_round_trip (darkMode prefersDark : bool) (st : Preferences.Storage) :
  Preferences.initDarkMode (snd (Preferences.applyDarkMode darkMode st)) prefersDark
  = darkMode
  /\ fst (Preferences.applyDarkMode darkMode st) = darkMode
  /\ (Preferences.hasKey Preferences.themeKey st = false ->
      Preferences.initDarkMode st prefersDark = prefersDark).
Proof.
  split; [|split].
  - unfold Preferences.initDarkMode, Preferences.applyDarkMode.
    destruct darkMode; cbn [snd]; rewrite getItem_setItem_same.
    + reflexivity.
    + cbn [Preferences.hasKey Preferences.setItem existsb fst].
      rewrite (proj2 (strEqb_eq Preferences.themeKey Preferences.themeKey) eq_refl).
      reflexivity.
  - destruct darkMode; reflexivity.
  - intros H. unfold Preferences.initDarkMode. rewrite H.
    apply hasKey_getItem in H. rewrite H. reflexivity.
Qed.

Lemma theme_round_trip_witness :
  Preferences.initDarkMode [] true = true
  /\ Preferences.initDarkMode (snd (Preferences.applyDarkMode false [])) true = false.
Proof.
  split.
  - apply (proj2 (proj2 (theme_round_trip false true []))). reflexivity.
  - apply (proj1 (theme_round_trip false true [])).
Defined.


(** ** Before the chapter list is there *)

(** X20.  When loading the chapter list fails in a state that has no
    chapter yet, the error cell holds the list message and the sidebar
    shows no chapter for any query; a search result that the provider
    resolves is put on display, but no chapter becomes current, so the
    next-verse, previous-verse and jump handlers do nothing from there. *)
Theorem no_list_no_navigation (getAyah : Provider) (st : AppState) (s a : Z)
    (data : AyahDisplayData) (q value : JsString.t) :
  surahs st = [] -> currentSurah st = None ->
  getAyah s a = Resolved data ->
  let st0 := fetchSurahs Failed st in
  let st' := fst (run getAyah (selectSearchResult s a st0)) in
  error st0 = Some listErrorMessage
  /\ filteredSurahs (setSurahQuery q st0) = []
  /\ ayahData st' = Some data
  /\ currentAyahNum st' = a
  /\ currentSurah st' = None
  /\ handleNextAyah st' = (st', [])
  /\ handlePrevAyah st' = (st', [])
  /\ handleJumpToAyah value st' = (st', []).
Proof.
  intros Hl Hc Hres st0 st'.
  assert (Hc' : currentSurah st' = None).
  { subst st' st0. rewrite run_selectSearchResult, Hres. unfold settle, fetchSurahs.
    cbn. rewrite Hc, Hl. cbn. exact Hc. }
  split; [reflexivity|].
  split; [unfold filteredSurahs, st0, fetchSurahs; cbn; rewrite Hl; reflexivity|].
  split; [|split; [|split; [exact Hc'|]]].
  - subst st' st0. rewrite run_selectSearchResult, Hres. unfold settle.
    cbn [p_currentSurah p_surahNum p_surahs p_ayahNum].
    destruct (needsSurahLookup _ _); [destruct (find _ _)|]; reflexivity.
  - subst st' st0. rewrite run_selectSearchResult, Hres. unfold settle.
    cbn [p_currentSurah p_surahNum p_surahs p_ayahNum].
    destruct (needsSurahLookup _ _); [destruct (find _ _)|]; reflexivity.
  - unfold handleNextAyah, handlePrevAyah, handleJumpToAyah. rewrite Hc'.
    repeat split.
Qed.

Lemma no_list_no_navigation_witness :
  let st0 := fetchSurahs Failed initialState in
  let st' := fst (run Sample.getAyah (selectSearchResult 2 255 st0)) in
  filteredSurahs (setSurahQuery (JsString.lit "a") st0) = []
  /\ ayahData st' = Some (Sample.verse 2 255)
  /\ currentSurah st' = None
  /\ handleNextAyah st' = (st', []).
Proof.
  intros st0 st'.
  pose proof (no_list_no_navigation Sample.getAyah initialState 2 255
                (Sample.verse 2 255) (JsString.lit "a") [] eq_refl eq_refl eq_refl) as H.
  cbv zeta in H. fold st0 in H. fold st' in H.
  destruct H as [_ [H2 [H3 [_ [H5 [H6 _]]]]]].
  split; [exact H2|]. split; [exact H3|]. split; [exact H5 | exact H6].
Defined.

(** ** Requests in flight *)

(** X21.  Handling next (or previous) again before the first answer has
    arrived, as on a second swipe, does not skip a verse: the second
    call, made in the state the first one left, issues the same request
    and leaves that state as it is. *)
Theorem repeated_step_same_request (st : AppState) :
  handleNextAyah (fst (handleNextAyah st)) =
    (fst (handleNextAyah st), snd (handleNextAyah st))
  /\ handlePrevAyah (fst (handlePrevAyah st)) =
    (fst (handlePrevAyah st), snd (handlePrevAyah st)).
Proof.
  destruct st as [l [c|] n d q m sb ld e]; [|split; reflexivity].
  unfold handleNextAyah, handlePrevAyah, loadAyah.
  cbn [currentSurah currentAyahNum]. split.
  - destruct (n <? numberOfAyahs c) eqn:E1; destruct (number c <? 114) eqn:E2;
      cbn -[Z.ltb Z.gtb Z.add Z.sub]; rewrite ?E1, ?E2; reflexivity.
  - destruct (n >? 1) eqn:E1; destruct (number c >? 1) eqn:E2;
      cbn -[Z.ltb Z.gtb Z.add Z.sub]; rewrite ?E1, ?E2; reflexivity.
Qed.

(** X22.  With two verse requests in flight, the answer that arrives last
    decides: if both resolve, the verse on display and the verse index are
    those of the request settled last, whichever was issued first; if the
    last one is rejected, the verse of the other stays on display with the
    load message in the error cell.  The loading flag is false as soon as
    either has settled. *)
Theorem last_answer_wins (p1 p2 : Pending) (d1 d2 : AyahDisplayData) (st : AppState) :
  let both := settle p1 (Resolved d1) (settle p2 (Resolved d2) st) in
  let failed := settle p1 Rejected (settle p2 (Resolved d2) st) in
  (ayahData both = Some d1 /\ currentAyahNum both = p_ayahNum p1)
  /\ (ayahData failed = Some d2 /\ currentAyahNum failed = p_ayahNum p2
      /\ error failed = Some loadErrorMessage)
  /\ forall r, isLoadingAyah (settle p2 r st) = false.
Proof.
  intros both failed.
  pose proof (settle_fields p1 (Resolved d1) (settle p2 (Resolved d2) st)) as H1.
  pose proof (settle_fields p1 Rejected (settle p2 (Resolved d2) st)) as H2.
  pose proof (settle_fields p2 (Resolved d2) st) as H3.
  cbv zeta in H1, H2, H3. fold both in H1. fold failed in H2.
  destruct H1 as [_ [_ [_ [_ [_ [H1n [H1d _]]]]]]].
  destruct H2 as [_ [_ [_ [_ [_ [_ [H2n [H2d H2e]]]]]]]].
  destruct H3 as [_ [_ [_ [_ [_ [H3n [H3d _]]]]]]].
  split; [split; assumption|]. split.
  - split; [congruence|]. split; [congruence | assumption].
  - intros r. apply (settle_fields p2 r st).
Qed.
